(** * Patient scheduling system: a shallow embedding of cs2assign.cpp

    The development embeds the [Patient], [PatientGenerator] and
    [Scheduler] classes and the loop of [main], and proves the properties
    of the scheduling core, of the generator and of the console driver.

    Modelling conventions.
    - A C++ [int] is a [Z].  Signed overflow is undefined behaviour in C++,
      so the source gives no meaning to an execution in which a counter or a
      difference leaves the range of [int]; on every other execution the
      arithmetic of the source is the arithmetic of [Z] used here.  The
      calls of the scheduler are also given with every [int] operation
      checked ([call_int]); a checked call that returns, returns what the
      call computes in [Z].
    - [std::queue<Patient>] is a [list Patient] whose head is the front of
      the queue: [push] appends at the end, [front]/[pop] take the head.
    - [std::vector<Patient>] is a [list Patient]; [push_back] appends.
    - A [while] loop is the loop combinator [while] below, which runs under
      a bound on the number of iterations and reports when the bound was
      too small; [servePatients_fuel_enough] shows that the lengths of the
      queues are a sufficient bound.
    - Text sent to [cout] is a list of output items.
    - [rand()] returns the values of a sequence given to the model, one
      per call; the model counts the calls made. *)

From Stdlib Require Import ZArith String Ascii List Bool Lia QArith.
From Stdlib Require Import DecimalString.
Import ListNotations.
Open Scope Z_scope.

(** ** Patient *)

Record Patient : Type := mkPatient {
  getId : string;            (* id *)
  getGender : ascii;         (* gender *)
  getArrivalTime : string;   (* arrival_time *)
  getType : string;          (* type *)
  getArrivalMinute : Z       (* arrival_minute *)
}.

(** ** Scheduler *)

Record Scheduler : Type := mkScheduler {
  urgent_queue : list Patient;
  normal_queue : list Patient;
  served_patients : list Patient;
  total_patients : Z;
  total_urgent : Z;
  total_normal : Z;
  total_waiting_time : Z;
  total_served : Z
}.

(** The state of a freshly constructed [Scheduler]: the default member
    initialisers of the class. *)
Definition new_Scheduler : Scheduler :=
  mkScheduler [] [] [] 0 0 0 0 0.

Definition isUrgentQueueEmpty (s : Scheduler) : bool :=
  match urgent_queue s with [] => true | _ :: _ => false end.

Definition isNormalQueueEmpty (s : Scheduler) : bool :=
  match normal_queue s with [] => true | _ :: _ => false end.

(** [Scheduler::addPatient]. *)
Definition addPatient (s : Scheduler) (patient : Patient) : Scheduler :=
  if String.eqb (getType patient) "Urgent" then
    mkScheduler (urgent_queue s ++ [patient]) (normal_queue s)
                (served_patients s)
                (total_patients s + 1) (total_urgent s + 1) (total_normal s)
                (total_waiting_time s) (total_served s)
  else
    mkScheduler (urgent_queue s) (normal_queue s ++ [patient])
                (served_patients s)
                (total_patients s + 1) (total_urgent s) (total_normal s + 1)
                (total_waiting_time s) (total_served s).

(** ** The serving pass *)

(** The state the loops of [servePatients] work on: the object and the
    local variable [served]. *)
Record ServeState : Type := mkServeState {
  sched : Scheduler;
  served : Z
}.

(** [while fuel cond body st] runs [while (cond) body] from [st] for at most
    [fuel] iterations.  It returns the final state with the number of
    iterations made, or [None] when [cond] still holds after [fuel]
    iterations. *)
Fixpoint while {A : Type} (fuel : nat) (cond : A -> bool) (body : A -> A)
    (st : A) : option (A * nat) :=
  if cond st then
    match fuel with
    | O => None
    | S fuel' =>
        match while fuel' cond body (body st) with
        | Some (st', n) => Some (st', S n)
        | None => None
        end
    end
  else Some (st, O).

(** [served < max_to_serve && !urgent_queue.empty()] *)
Definition urgent_cond (max_to_serve : Z) (st : ServeState) : bool :=
  (served st <? max_to_serve) && negb (isUrgentQueueEmpty (sched st)).

(** The body of the first loop.  The [else] branch throws a
    [runtime_error] that the [catch] of the same iteration handles by
    printing a message: the state is left as it was. *)
Definition urgent_body (minute : Z) (st : ServeState) : ServeState :=
  let s := sched st in
  match urgent_queue s with
  | p :: rest =>
      let waiting_time := minute - getArrivalMinute p in
      if waiting_time >? 10 then
        (* continue: the patient has left the queue and goes nowhere *)
        mkServeState
          (mkScheduler rest (normal_queue s) (served_patients s)
             (total_patients s) (total_urgent s) (total_normal s)
             (total_waiting_time s) (total_served s))
          (served st)
      else
        mkServeState
          (mkScheduler rest (normal_queue s) (served_patients s ++ [p])
             (total_patients s) (total_urgent s) (total_normal s)
             (total_waiting_time s + waiting_time) (total_served s))
          (served st + 1)
  | [] => st
  end.

(** [served < max_to_serve && !normal_queue.empty()] *)
Definition normal_cond (max_to_serve : Z) (st : ServeState) : bool :=
  (served st <? max_to_serve) && negb (isNormalQueueEmpty (sched st)).

(** The body of the second loop. *)
Definition normal_body (minute : Z) (st : ServeState) : ServeState :=
  let s := sched st in
  match normal_queue s with
  | p :: rest =>
      let waiting_time := minute - getArrivalMinute p in
      if waiting_time >? 10 then
        mkServeState
          (mkScheduler (urgent_queue s) rest (served_patients s)
             (total_patients s) (total_urgent s) (total_normal s)
             (total_waiting_time s) (total_served s))
          (served st)
      else
        mkServeState
          (mkScheduler (urgent_queue s) rest (served_patients s ++ [p])
             (total_patients s) (total_urgent s) (total_normal s)
             (total_waiting_time s + waiting_time) (total_served s))
          (served st + 1)
  | [] => st
  end.

(** The first loop, entered with [served = 0]. *)
Definition urgent_phase (fuel : nat) (max_to_serve minute : Z)
    (s : Scheduler) : option (ServeState * nat) :=
  while fuel (urgent_cond max_to_serve) (urgent_body minute)
        (mkServeState s 0).

(** The second loop, entered in the state the first one left. *)
Definition normal_phase (fuel : nat) (max_to_serve minute : Z)
    (st : ServeState) : option (ServeState * nat) :=
  while fuel (normal_cond max_to_serve) (normal_body minute) st.

(** [total_served += served] *)
Definition update_total_served (st : ServeState) : Scheduler :=
  let s := sched st in
  mkScheduler (urgent_queue s) (normal_queue s) (served_patients s)
    (total_patients s) (total_urgent s) (total_normal s)
    (total_waiting_time s) (total_served s + served st).

(** [Scheduler::servePatients] with each loop bounded by [fuel]; the
    result carries the number of loop iterations of the call. *)
Definition servePatients_fuel (fuel : nat) (max_to_serve minute : Z)
    (s : Scheduler) : option (Scheduler * nat) :=
  match urgent_phase fuel max_to_serve minute s with
  | None => None
  | Some (st1, n1) =>
      match normal_phase fuel max_to_serve minute st1 with
      | None => None
      | Some (st2, n2) => Some (update_total_served st2, (n1 + n2)%nat)
      end
  end.

(** The bound under which [servePatients] is run. *)
Definition serve_fuel (s : Scheduler) : nat :=
  (length (urgent_queue s) + length (normal_queue s))%nat.

(** [Scheduler::servePatients].  The [None] branch is never taken
    ([servePatients_fuel_enough]). *)
Definition servePatients (max_to_serve minute : Z) (s : Scheduler)
    : Scheduler :=
  match servePatients_fuel (serve_fuel s) max_to_serve minute s with
  | Some (s', _) => s'
  | None => s
  end.

(** ** Statistics *)

(** What is inserted into [cout]. *)
Inductive OutItem : Type :=
| OStr (s : string)           (* a string literal *)
| OInt (n : Z)                (* an [int] *)
| OQuotient (num den : Z)     (* the [double] [static_cast<double>(num) / den],
                                 printed [fixed] with [setprecision(2)] *)
| OEndl.                      (* [endl] *)

Definition newline : string := String (ascii_of_nat 10) EmptyString.

(** [Scheduler::displayStatistics]: the object is not changed, the value is
    the text produced. *)
Definition displayStatistics (s : Scheduler) : list OutItem :=
  [ OStr (newline ++ "Simulation Summary:" ++ newline);
    OStr "Total Patients: "; OInt (total_patients s); OEndl;
    OStr "Urgent Patients: "; OInt (total_urgent s); OEndl;
    OStr "Normal Patients: "; OInt (total_normal s); OEndl;
    OStr "Total Served Patients: "; OInt (total_served s); OEndl ]
  ++
  (if total_served s >? 0 then
     [ OStr "Average Waiting Time: ";
       OQuotient (total_waiting_time s) (total_served s);
       OStr " minutes"; OEndl ]
   else
     [ OStr "Average Waiting Time: N/A (no patients served)"; OEndl ]).

(** An output item that stands for a division. *)
Definition is_division (o : OutItem) : bool :=
  match o with OQuotient _ _ => true | _ => false end.

(** The quotient [total_waiting_time / total_served] as a rational: the
    number that [displayStatistics] rounds to a [double]. *)
Definition average_waiting_time (s : Scheduler) : Q :=
  (inject_Z (total_waiting_time s) / inject_Z (total_served s))%Q.

Definition sum_Z (l : list Z) : Z := fold_right Z.add 0 l.


(** ** The console driver *)

(** [std::isspace] in the C locale. *)
Definition is_space (c : ascii) : bool :=
  let n := nat_of_ascii c in
  ((n =? 32) || ((9 <=? n) && (n <=? 13)))%nat.

(** [std::toupper] in the C locale. *)
Definition toupper (c : ascii) : ascii :=
  let n := nat_of_ascii c in
  if ((97 <=? n) && (n <=? 122))%nat then ascii_of_nat (n - 32) else c.

Fixpoint string_map (f : ascii -> ascii) (s : string) : string :=
  match s with
  | EmptyString => EmptyString
  | String c r => String (f c) (string_map f r)
  end.

(** [input.erase(input.find_last_not_of(" \n\r\t") + 1)] *)
Definition is_trimmed_char (c : ascii) : bool :=
  let n := nat_of_ascii c in
  ((n =? 32) || (n =? 10) || (n =? 13) || (n =? 9))%nat.

Fixpoint rtrim (s : string) : string :=
  match s with
  | EmptyString => EmptyString
  | String c r =>
      match rtrim r with
      | EmptyString => if is_trimmed_char c then EmptyString
                       else String c EmptyString
      | r' => String c r'
      end
  end.

(** A [stringstream] being read: the characters not yet consumed and the
    fail bit. *)
Record istream : Type := mkIstream {
  pending : string;
  failbit : bool
}.

Fixpoint skip_ws (s : string) : string :=
  match s with
  | EmptyString => EmptyString
  | String c r => if is_space c then skip_ws r else s
  end.

(** The characters up to the next white space, and what follows them. *)
Fixpoint read_word (s : string) : string * string :=
  match s with
  | EmptyString => (EmptyString, EmptyString)
  | String c r =>
      if is_space c then (EmptyString, s)
      else let (w, rest) := read_word r in (String c w, rest)
  end.

(** [ss >> str] for a [string]: on a stream that has failed nothing
    happens; otherwise [str] is erased, leading white space is skipped
    and the next word is read; the stream fails when there is none. *)
Definition extract_string (ss : istream) (old : string)
    : istream * string :=
  if failbit ss then (ss, old)
  else
    match skip_ws (pending ss) with
    | EmptyString => (mkIstream EmptyString true, EmptyString)
    | b => let (w, rest) := read_word b in (mkIstream rest false, w)
    end.

(** [ss >> c] for a [char]: one character after leading white space. *)
Definition extract_char (ss : istream) (old : ascii) : istream * ascii :=
  if failbit ss then (ss, old)
  else
    match skip_ws (pending ss) with
    | EmptyString => (mkIstream EmptyString true, old)
    | String c rest => (mkIstream rest false, c)
    end.

(** The [try] block of [main] on a line that is neither empty nor
    [next].  [gender0] is the value the local [gender] holds before the
    extraction (it is not initialised).  When the type is refused the
    exception is caught in the same iteration and the scheduler is left
    as it was. *)
Definition manual_entry (gender0 : ascii) (minute : Z) (input : string)
    (s : Scheduler) : Scheduler :=
  let ss := mkIstream input false in
  let (ss1, id) := extract_string ss EmptyString in
  let (ss2, gender) := extract_char ss1 gender0 in
  let (ss3, arrival_time) := extract_string ss2 EmptyString in
  let (_, type0) := extract_string ss3 EmptyString in
  let type := string_map toupper type0 in
  if negb (String.eqb type "URGENT") && negb (String.eqb type "NORMAL")
  then s
  else addPatient s (mkPatient id gender arrival_time type minute).

(** The state of [main]: the scheduler and the clock. *)
Record MainState : Type := mkMainState {
  scheduler : Scheduler;
  clock : Z
}.

(** One iteration of the loop of [main] on the line [line]; the boolean
    tells whether the loop is left.  [max_to_serve] is the value
    [rand() % 6 + 5] would take in this iteration. *)
Definition main_iteration (gender0 : ascii) (max_to_serve : Z)
    (line : string) (st : MainState) : MainState * bool :=
  let input := rtrim line in
  match input with
  | EmptyString => (st, false)
  | _ =>
      if String.eqb input "next" then
        let s' := servePatients max_to_serve (clock st) (scheduler st) in
        (mkMainState s' (clock st + 1),
         isUrgentQueueEmpty s' && isNormalQueueEmpty s')
      else
        (mkMainState (manual_entry gender0 (clock st) input (scheduler st))
                     (clock st),
         false)
  end.

(** ** Sequences of calls *)

Inductive Call : Type :=
| CallAdd (patient : Patient)
| CallServe (max_to_serve minute : Z).

Definition call (s : Scheduler) (c : Call) : Scheduler :=
  match c with
  | CallAdd p => addPatient s p
  | CallServe max_to_serve minute => servePatients max_to_serve minute s
  end.

Definition run (s : Scheduler) (cs : list Call) : Scheduler :=
  fold_left call cs s.

(** The waiting time [servePatients] computes for [p] at [minute]. *)
Definition waiting (minute : Z) (p : Patient) : Z :=
  minute - getArrivalMinute p.

(** The patients [servePatients] does not skip at [minute]. *)
Definition in_time (minute : Z) (p : Patient) : bool :=
  negb (waiting minute p >? 10).

(** The entries a call appended to [served_patients]. *)
Definition newly_served (s s' : Scheduler) : list Patient :=
  skipn (length (served_patients s)) (served_patients s').

(** The serving log of a sequence of calls: every entry appended to
    [served_patients], with the [minute] of the call that appended it. *)
Definition log_call (s : Scheduler) (c : Call) : list (Patient * Z) :=
  match c with
  | CallAdd _ => []
  | CallServe max_to_serve minute =>
      map (fun p => (p, minute))
          (newly_served s (servePatients max_to_serve minute s))
  end.

Fixpoint serving_log (s : Scheduler) (cs : list Call)
    : list (Patient * Z) :=
  match cs with
  | [] => []
  | c :: cs' => log_call s c ++ serving_log (call s c) cs'
  end.

(** The wait of a log entry: the minute of the serving call minus the
    arrival minute of the patient. *)
Definition logged_wait (e : Patient * Z) : Z :=
  waiting (snd e) (fst e).

(** ** The calls with the range of [int] checked

    The counters, the clock and the waiting times of the source are
    [int]s.  The definitions above compute them in [Z]; they describe the
    source on every execution in which no [int] operation leaves the
    range of [int].  The definitions below are the same code with each
    [int] operation checked: they tell when that is the case, and give
    [Overflow] when it is not (the behaviour of the source is then
    undefined; compiled code usually wraps around). *)

Definition INT_MIN : Z := -2147483648.
Definition INT_MAX : Z := 2147483647.

Definition in_int (z : Z) : bool := (INT_MIN <=? z) && (z <=? INT_MAX).

(** The result of an [int] operation whose mathematical value is [z]. *)
Definition int_result (z : Z) : option Z :=
  if in_int z then Some z else None.

(** How a checked call ends. *)
Inductive Outcome (A : Type) : Type :=
| Done (a : A)     (* it returned, in the state [a] *)
| Overflow         (* an [int] operation left the range of [int] *)
| OutOfFuel.       (* a loop was stopped by the bound on its iterations *)

Arguments Done {A} a.
Arguments Overflow {A}.
Arguments OutOfFuel {A}.

(** [while] for a body that may overflow. *)
Fixpoint while_int {A : Type} (fuel : nat) (cond : A -> bool)
    (body : A -> option A) (st : A) : Outcome A :=
  if cond st then
    match fuel with
    | O => OutOfFuel
    | S fuel' =>
        match body st with
        | Some st1 => while_int fuel' cond body st1
        | None => Overflow
        end
    end
  else Done st.

(** [Scheduler::addPatient]: [total_urgent++] or [total_normal++], then
    [total_patients++]. *)
Definition addPatient_int (s : Scheduler) (patient : Patient)
    : option Scheduler :=
  if String.eqb (getType patient) "Urgent" then
    match int_result (total_urgent s + 1),
          int_result (total_patients s + 1) with
    | Some tu, Some tp =>
        Some (mkScheduler (urgent_queue s ++ [patient]) (normal_queue s)
                (served_patients s) tp tu (total_normal s)
                (total_waiting_time s) (total_served s))
    | _, _ => None
    end
  else
    match int_result (total_normal s + 1),
          int_result (total_patients s + 1) with
    | Some tn, Some tp =>
        Some (mkScheduler (urgent_queue s) (normal_queue s ++ [patient])
                (served_patients s) tp (total_urgent s) tn
                (total_waiting_time s) (total_served s))
    | _, _ => None
    end.

(** The body of the first loop: [minute - p.getArrivalMinute()],
    [total_waiting_time += waiting_time] and [served++] are checked. *)
Definition urgent_body_int (minute : Z) (st : ServeState)
    : option ServeState :=
  let s := sched st in
  match urgent_queue s with
  | p :: rest =>
      match int_result (minute - getArrivalMinute p) with
      | None => None
      | Some waiting_time =>
          if waiting_time >? 10 then
            Some (mkServeState
                    (mkScheduler rest (normal_queue s) (served_patients s)
                       (total_patients s) (total_urgent s) (total_normal s)
                       (total_waiting_time s) (total_served s))
                    (served st))
          else
            match int_result (total_waiting_time s + waiting_time),
                  int_result (served st + 1) with
            | Some tw, Some sv =>
                Some (mkServeState
                        (mkScheduler rest (normal_queue s)
                           (served_patients s ++ [p])
                           (total_patients s) (total_urgent s)
                           (total_normal s) tw (total_served s))
                        sv)
            | _, _ => None
            end
      end
  | [] => Some st
  end.

(** The body of the second loop. *)
Definition normal_body_int (minute : Z) (st : ServeState)
    : option ServeState :=
  let s := sched st in
  match normal_queue s with
  | p :: rest =>
      match int_result (minute - getArrivalMinute p) with
      | None => None
      | Some waiting_time =>
          if waiting_time >? 10 then
            Some (mkServeState
                    (mkScheduler (urgent_queue s) rest (served_patients s)
                       (total_patients s) (total_urgent s) (total_normal s)
                       (total_waiting_time s) (total_served s))
                    (served st))
          else
            match int_result (total_waiting_time s + waiting_time),
                  int_result (served st + 1) with
            | Some tw, Some sv =>
                Some (mkServeState
                        (mkScheduler (urgent_queue s) rest
                           (served_patients s ++ [p])
                           (total_patients s) (total_urgent s)
                           (total_normal s) tw (total_served s))
                        sv)
            | _, _ => None
            end
      end
  | [] => Some st
  end.

(** [Scheduler::servePatients]: the two loops, then
    [total_served += served]. *)
Definition servePatients_int (max_to_serve minute : Z) (s : Scheduler)
    : Outcome Scheduler :=
  match while_int (serve_fuel s) (urgent_cond max_to_serve)
                  (urgent_body_int minute) (mkServeState s 0) with
  | Done st1 =>
      match while_int (serve_fuel s) (normal_cond max_to_serve)
                      (normal_body_int minute) st1 with
      | Done st2 =>
          let s2 := sched st2 in
          match int_result (total_served s2 + served st2) with
          | Some ts =>
              Done (mkScheduler (urgent_queue s2) (normal_queue s2)
                      (served_patients s2)
                      (total_patients s2) (total_urgent s2)
                      (total_normal s2) (total_waiting_time s2) ts)
          | None => Overflow
          end
      | Overflow => Overflow
      | OutOfFuel => OutOfFuel
      end
  | Overflow => Overflow
  | OutOfFuel => OutOfFuel
  end.

Definition call_int (s : Scheduler) (c : Call) : Outcome Scheduler :=
  match c with
  | CallAdd p =>
      match addPatient_int s p with
      | Some s' => Done s'
      | None => Overflow
      end
  | CallServe max_to_serve minute => servePatients_int max_to_serve minute s
  end.

(** ** Printing the queues *)

(** The state of a loop of [displayQueues]: the copy of the queue that is
    being emptied and the text printed so far. *)
Record PrintLoop : Type := mkPrintLoop {
  temp : list Patient;
  printed : list OutItem
}.

(** [!temp.empty()] *)
Definition print_cond (st : PrintLoop) : bool :=
  match temp st with [] => false | _ :: _ => true end.

(** [cout << temp.front().getId() << " "; temp.pop();]  The loop is not
    entered on an empty queue. *)
Definition print_body (st : PrintLoop) : PrintLoop :=
  match temp st with
  | p :: rest =>
      mkPrintLoop rest (printed st ++ [OStr (getId p); OStr " "])
  | [] => st
  end.

Definition print_queue (q : list Patient) (out : list OutItem)
    : list OutItem :=
  match while (length q) print_cond print_body (mkPrintLoop q out) with
  | Some (st, _) => printed st
  | None => out
  end.

(** [Scheduler::displayQueues]: the object is not changed (the loops work
    on copies of the queues), the value is the text produced. *)
Definition displayQueues (s : Scheduler) : list OutItem :=
  let out := [ OStr (newline ++ "Current State of Queues:" ++ newline);
               OStr "Urgent Queue: " ] in
  let out := print_queue (urgent_queue s) out in
  let out := out ++ [ OEndl; OStr "Normal Queue: " ] in
  let out := print_queue (normal_queue s) out in
  let out := out ++ [ OEndl; OStr "Currently Served Patients: " ] in
  let out := fold_left (fun o p => o ++ [OStr (getId p); OStr " "])
                       (served_patients s) out in
  out ++ [ OEndl ].

(** The ids of a list of patients as [displayQueues] prints them. *)
Definition printed_ids (l : list Patient) : list OutItem :=
  flat_map (fun p => [OStr (getId p); OStr " "]) l.

(** ** The patient generator *)

(** [std::to_string] of an [int]. *)
Definition to_string (n : Z) : string :=
  NilZero.string_of_int (Z.to_int n).

Definition is_digit (c : ascii) : bool :=
  let n := nat_of_ascii c in ((48 <=? n) && (n <=? 57))%nat.

(** A computation that calls [rand()]: it maps the number of calls made
    before it to its result and the number of calls made after it.  The
    values [rand()] returns, call after call, are a sequence
    [rand_values] given to the computation. *)
Definition Rand (A : Type) : Type := nat -> A * nat.

Definition rand (rand_values : nat -> Z) : Rand Z :=
  fun calls => (rand_values calls, S calls).

Definition rand_ret {A : Type} (a : A) : Rand A :=
  fun calls => (a, calls).

Definition rand_bind {A B : Type} (m : Rand A) (k : A -> Rand B) : Rand B :=
  fun calls => let (a, calls') := m calls in k a calls'.

Notation "x <- m ;; k" := (rand_bind m (fun x => k))
  (at level 61, m at next level, right associativity).

(** The state of the loop that appends 13 digits to the id. *)
Record IdLoop : Type := mkIdLoop {
  id_i : Z;
  id_text : string;
  id_calls : nat
}.

(** [i < 13] *)
Definition id_cond (st : IdLoop) : bool := id_i st <? 13.

(** [id += to_string(rand() % 10)], then [i++]. *)
Definition id_body (rand_values : nat -> Z) (st : IdLoop) : IdLoop :=
  mkIdLoop (id_i st + 1)
           (id_text st ++ to_string (Z.rem (rand_values (id_calls st)) 10))
           (S (id_calls st)).

Definition append_digits (rand_values : nat -> Z) (id : string)
    : Rand string :=
  fun calls =>
    match while 13 id_cond (id_body rand_values) (mkIdLoop 0 id calls) with
    | Some (st, _) => (id_text st, id_calls st)
    | None => (id, calls)
    end.

(** [PatientGenerator::generateRandomPatient].  In the expression for
    [arrival_time] the two calls of [rand()] are operands of one [+]:
    the language leaves open which is made first, and [hour_first] tells
    which. *)
Definition generateRandomPatient (rand_values : nat -> Z)
    (hour_first : bool) (minute : Z) : Rand Patient :=
  r <- rand rand_values ;;
  let first_digit := Z.rem r 2 + 2 in
  id <- append_digits rand_values (to_string first_digit) ;;
  r <- rand rand_values ;;
  let gender := if Z.rem r 2 =? 0 then "M"%char else "F"%char in
  r1 <- rand rand_values ;;
  r2 <- rand rand_values ;;
  let hour := if hour_first then r1 else r2 in
  let min := if hour_first then r2 else r1 in
  let arrival_time :=
    (to_string (Z.rem hour 24) ++ ":" ++ to_string (Z.rem min 60))%string in
  r <- rand rand_values ;;
  let type := if Z.rem r 2 =? 0 then "Urgent"%string else "Normal"%string in
  rand_ret (mkPatient id gender arrival_time type minute).

(** The state of the loop of [generatePatients]. *)
Record GenLoop : Type := mkGenLoop {
  gen_i : Z;
  gen_patients : list Patient;
  gen_calls : nat
}.

(** [i < count] *)
Definition gen_cond (count : Z) (st : GenLoop) : bool := gen_i st <? count.

(** [patients.push_back(generateRandomPatient(start_minute))], then
    [i++]. *)
Definition gen_body (rand_values : nat -> Z) (hour_first : bool)
    (start_minute : Z) (st : GenLoop) : GenLoop :=
  let (p, calls) :=
    generateRandomPatient rand_values hour_first start_minute (gen_calls st)
  in mkGenLoop (gen_i st + 1) (gen_patients st ++ [p]) calls.

(** [PatientGenerator::generatePatients]. *)
Definition generatePatients (rand_values : nat -> Z) (hour_first : bool)
    (count start_minute : Z) : Rand (list Patient) :=
  fun calls =>
    match while (Z.to_nat count) (gen_cond count)
                (gen_body rand_values hour_first start_minute)
                (mkGenLoop 0 [] calls) with
    | Some (st, _) => (gen_patients st, gen_calls st)
    | None => ([], calls)
    end.

(** The scheduler [main] enters its loop with: the 100 generated
    patients, enrolled in the order of their generation. *)
Definition initial_scheduler (rand_values : nat -> Z) (hour_first : bool)
    : Scheduler :=
  fold_left addPatient
            (fst (generatePatients rand_values hour_first 100 0 O))
            new_Scheduler.

(** ** Strings *)

(** Every character of [s] satisfies [f]. *)
Fixpoint string_all (f : ascii -> bool) (s : string) : bool :=
  match s with
  | EmptyString => true
  | String c r => f c && string_all f r
  end.

(** A word as [>>] reads one: not empty and without white space. *)
Definition is_word (s : string) : bool :=
  negb (String.eqb s EmptyString)
  && string_all (fun c => negb (is_space c)) s.

(** A separator between two words: white space, at least one character. *)
Definition is_separator (s : string) : bool :=
  negb (String.eqb s EmptyString) && string_all is_space s.

(** What may follow a word in a stream: nothing, or white space first. *)
Definition starts_blank (s : string) : bool :=
  match s with
  | EmptyString => true
  | String c _ => is_space c
  end.

(** ** The whole loop of [main] *)

(** The loop of [main] on the lines [lines], as long as it is not left;
    the boolean tells whether it was left.  [capacity i] is the value of
    [rand() % 6 + 5] in iteration [i]. *)
Fixpoint main_loop (gender0 : ascii) (capacity : nat -> Z) (i : nat)
    (lines : list string) (st : MainState) : MainState * bool :=
  match lines with
  | [] => (st, false)
  | line :: rest =>
      let (st', stop) := main_iteration gender0 (capacity i) line st in
      if stop then (st', true)
      else main_loop gender0 capacity (S i) rest st'
  end.

(** The patients a sequence of calls enrols, in the order of the calls. *)
Definition enrolled (cs : list Call) : list Patient :=
  flat_map (fun c => match c with
                     | CallAdd p => [p]
                     | CallServe _ _ => []
                     end) cs.

(** The test of [addPatient]. *)
Definition is_urgent (p : Patient) : bool :=
  String.eqb (getType p) "Urgent".

(** [subseq l l']: [l] is [l'] with some elements left out. *)
Inductive subseq {A : Type} : list A -> list A -> Prop :=
| subseq_nil : subseq [] []
| subseq_skip (x : A) (l l' : list A) : subseq l l' -> subseq l (x :: l')
| subseq_take (x : A) (l l' : list A) :
    subseq l l' -> subseq (x :: l) (x :: l').

(** ** Example states *)

(** A scheduler with empty queues and a history: one urgent patient was
    enrolled at minute 0 and served at minute 5. *)
Definition example_patient (type : string) (arrival : Z) : Patient :=
  mkPatient "A1" "M" "10:30" type arrival.

Definition served_one : Scheduler :=
  servePatients 1 5 (addPatient new_Scheduler (example_patient "Urgent" 0)).

(** A scheduler whose urgent queue holds a patient enrolled at minute 0
    and two enrolled later, and whose normal queue holds one patient. *)
Definition busy_scheduler : Scheduler :=
  mkScheduler
    [example_patient "Urgent" 0; example_patient "Urgent" 15;
     example_patient "Urgent" 16]
    [example_patient "Normal" 17] [] 4 3 1 0 0.

(** The scheduler after a pass that discarded its only patient. *)
Definition discarded_one : Scheduler :=
  servePatients 1 11 (addPatient new_Scheduler (example_patient "Urgent" 0)).

(** A sequence of values for [rand()] to return. *)
Definition example_rand (k : nat) : Z :=
  Z.of_nat (k * k + k / 3 + 5).

(** ** Vocabulary of the proofs *)

(** What one loop does to the queue [q] it works on, to [served_patients],
    to [total_waiting_time] and to the local [served] when it makes [k]
    iterations: the first [k] patients leave the queue, those of them
    that are in time are appended and counted, and the loop stops on an
    empty queue or a used-up capacity. *)
Definition queue_pass (max_to_serve minute : Z) (k : nat)
    (q q' sp sp' : list Patient) (tw tw' sv sv' : Z) : Prop :=
  (k <= length q)%nat /\
  q' = skipn k q /\
  sp' = sp ++ filter (in_time minute) (firstn k q) /\
  tw' = tw + sum_Z (map (waiting minute)
                        (filter (in_time minute) (firstn k q))) /\
  sv' = sv + Z.of_nat (length (filter (in_time minute) (firstn k q))) /\
  (q' = [] \/ max_to_serve <= sv') /\
  (sv <= max_to_serve -> sv' <= max_to_serve) /\
  (k <> O -> sv < max_to_serve).

(** What a loop of [servePatients] never modifies, for the loop on the
    urgent queue and for the loop on the normal queue. *)
Definition urgent_frame (st : ServeState) :=
  let s := sched st in
  (normal_queue s, total_patients s, total_urgent s, total_normal s,
   total_served s).

Definition normal_frame (st : ServeState) :=
  let s := sched st in
  (urgent_queue s, total_patients s, total_urgent s, total_normal s,
   total_served s).

(** One loop of [servePatients] as a recursion on the queue: with [room]
    places left, [pass minute q room] is what remains of [q] and the
    patients served, in order. *)
Fixpoint pass (minute : Z) (q : list Patient) (room : Z)
    : list Patient * list Patient :=
  match q with
  | [] => ([], [])
  | p :: q' =>
      if 0 <? room then
        if in_time minute p then
          let (rest, sv) := pass minute q' (room - 1) in (rest, p :: sv)
        else pass minute q' room
      else (q, [])
  end.

(** * Properties *)

(** ** The loop combinator *)

Lemma while_unfold {A : Type} (fuel : nat) (cond : A -> bool)
    (body : A -> A) (st : A) :
  while fuel cond body st =
  if cond st then
    match fuel with
    | O => None
    | S fuel' =>
        match while fuel' cond body (body st) with
        | Some (st', n) => Some (st', S n)
        | None => None
        end
    end
  else Some (st, O).
Proof. destruct fuel; reflexivity. Qed.

(** A result does not depend on the bound that produced it. *)
Lemma while_fuel_irrelevant {A : Type} (cond : A -> bool) (body : A -> A) :
  forall fuel fuel' st r r',
    while fuel cond body st = Some r ->
    while fuel' cond body st = Some r' ->
    r = r'.
Proof.
  induction fuel as [|f IH]; intros fuel' st r r' H H'.
  - rewrite while_unfold in H, H'.
    destruct (cond st); [discriminate|]. congruence.
  - rewrite while_unfold in H. rewrite (while_unfold fuel') in H'.
    destruct (cond st); [|congruence].
    destruct fuel' as [|f']; [discriminate|].
    destruct (while f cond body (body st)) as [[a n]|] eqn:E;
      [|discriminate].
    destruct (while f' cond body (body st)) as [[a' n']|] eqn:E';
      [|discriminate].
    specialize (IH _ _ _ _ E E').
    injection IH as -> ->. congruence.
Qed.

Lemma sum_Z_app (l l' : list Z) : sum_Z (l ++ l') = sum_Z l + sum_Z l'.
Proof.
  induction l as [|x l IH]; simpl; [reflexivity|]. rewrite IH. lia.
Qed.

(** ** A loop that empties a queue

    Both loops of [servePatients] have the same form.  The section
    describes a loop over a state of which one component is the queue being
    emptied, one the list served patients are appended to, one the sum of
    waiting times, one the count of patients served in the call, and
    [frame] whatever the loop leaves alone. *)

Section QueueLoop.
Context {A B : Type}.
Variables max_to_serve minute : Z.
Variable cond : A -> bool.
Variable body : A -> A.
Variable queue : A -> list Patient.
Variable appended : A -> list Patient.
Variable wait_sum : A -> Z.
Variable count : A -> Z.
Variable frame : A -> B.

Hypothesis cond_spec : forall st,
  cond st = (count st <? max_to_serve)
            && negb (match queue st with [] => true | _ :: _ => false end).

Hypothesis body_spec : forall st p rest,
  queue st = p :: rest ->
  queue (body st) = rest /\
  frame (body st) = frame st /\
  if in_time minute p then
    appended (body st) = appended st ++ [p] /\
    wait_sum (body st) = wait_sum st + waiting minute p /\
    count (body st) = count st + 1
  else
    appended (body st) = appended st /\
    wait_sum (body st) = wait_sum st /\
    count (body st) = count st.

(** An iteration that is entered removes exactly one patient. *)
Lemma queue_loop_step st :
  cond st = true -> S (length (queue (body st))) = length (queue st).
Proof.
  rewrite cond_spec. intros H.
  apply andb_true_iff in H as [_ H].
  destruct (queue st) as [|p rest] eqn:E; [discriminate|].
  destruct (body_spec st p rest E) as [-> _]. reflexivity.
Qed.

Lemma queue_loop_run :
  forall fuel st,
    (length (queue st) <= fuel)%nat ->
    exists k st',
      while fuel cond body st = Some (st', k) /\
      (k <= length (queue st))%nat /\
      queue st' = skipn k (queue st) /\
      appended st' =
        appended st ++ filter (in_time minute) (firstn k (queue st)) /\
      wait_sum st' =
        wait_sum st
        + sum_Z (map (waiting minute)
                     (filter (in_time minute) (firstn k (queue st)))) /\
      count st' =
        count st
        + Z.of_nat (length (filter (in_time minute)
                                   (firstn k (queue st)))) /\
      frame st' = frame st /\
      (queue st' = [] \/ max_to_serve <= count st') /\
      (count st <= max_to_serve -> count st' <= max_to_serve) /\
      (k <> O -> count st < max_to_serve).
Proof.
  induction fuel as [|f IH]; intros st Hlen.
  - exists O, st. rewrite while_unfold, cond_spec.
    destruct (queue st) as [|p rest] eqn:E; [|simpl in Hlen; lia].
    rewrite andb_false_r. simpl. rewrite app_nil_r, !Z.add_0_r.
    repeat split; auto; lia.
  - rewrite while_unfold, cond_spec.
    destruct (count st <? max_to_serve) eqn:Hc.
    + destruct (queue st) as [|p rest] eqn:E.
      * exists O, st. simpl. rewrite E, app_nil_r, !Z.add_0_r.
        repeat split; auto; lia.
      * simpl andb. cbv iota.
        destruct (body_spec st p rest E) as (Hq & Hf & Hb).
        destruct (IH (body st)) as (k & st' & Hrun & Hk & Hq' & Ha & Hw
                                    & Hn & Hfr & Hex & Hle & _).
        { rewrite Hq. simpl in Hlen. lia. }
        exists (S k), st'. rewrite Hrun.
        apply Z.ltb_lt in Hc.
        rewrite Hq in *. simpl firstn. simpl skipn. simpl filter.
        destruct (in_time minute p); destruct Hb as (Hb1 & Hb2 & Hb3).
        -- rewrite Hb1 in Ha. rewrite Hb2 in Hw. rewrite Hb3 in Hn, Hle.
           rewrite <- app_assoc in Ha. simpl in Ha.
           simpl map. simpl sum_Z. simpl length. rewrite Nat2Z.inj_succ.
           repeat split; auto; try lia; try congruence.
        -- rewrite Hb1 in Ha. rewrite Hb2 in Hw. rewrite Hb3 in Hn, Hle.
           repeat split; auto; try (simpl; lia); try congruence.
    + exists O, st. simpl. rewrite app_nil_r, !Z.add_0_r.
      apply Z.ltb_ge in Hc.
      repeat split; auto; lia.
Qed.
End QueueLoop.

(** ** The two loops of [servePatients] *)

Section ServePatients.
Variables max_to_serve minute : Z.

Lemma urgent_cond_spec st :
  urgent_cond max_to_serve st =
  (served st <? max_to_serve)
  && negb (match urgent_queue (sched st) with
           | [] => true | _ :: _ => false end).
Proof. reflexivity. Qed.

Lemma normal_cond_spec st :
  normal_cond max_to_serve st =
  (served st <? max_to_serve)
  && negb (match normal_queue (sched st) with
           | [] => true | _ :: _ => false end).
Proof. reflexivity. Qed.

Lemma urgent_body_spec st p rest :
  urgent_queue (sched st) = p :: rest ->
  urgent_queue (sched (urgent_body minute st)) = rest /\
  urgent_frame (urgent_body minute st) = urgent_frame st /\
  if in_time minute p then
    served_patients (sched (urgent_body minute st))
      = served_patients (sched st) ++ [p] /\
    total_waiting_time (sched (urgent_body minute st))
      = total_waiting_time (sched st) + waiting minute p /\
    served (urgent_body minute st) = served st + 1
  else
    served_patients (sched (urgent_body minute st))
      = served_patients (sched st) /\
    total_waiting_time (sched (urgent_body minute st))
      = total_waiting_time (sched st) /\
    served (urgent_body minute st) = served st.
Proof.
  intros E. unfold urgent_body, urgent_frame, in_time, waiting.
  cbv zeta. rewrite E.
  destruct (minute - getArrivalMinute p >? 10); simpl; auto.
Qed.

Lemma normal_body_spec st p rest :
  normal_queue (sched st) = p :: rest ->
  normal_queue (sched (normal_body minute st)) = rest /\
  normal_frame (normal_body minute st) = normal_frame st /\
  if in_time minute p then
    served_patients (sched (normal_body minute st))
      = served_patients (sched st) ++ [p] /\
    total_waiting_time (sched (normal_body minute st))
      = total_waiting_time (sched st) + waiting minute p /\
    served (normal_body minute st) = served st + 1
  else
    served_patients (sched (normal_body minute st))
      = served_patients (sched st) /\
    total_waiting_time (sched (normal_body minute st))
      = total_waiting_time (sched st) /\
    served (normal_body minute st) = served st.
Proof.
  intros E. unfold normal_body, normal_frame, in_time, waiting.
  cbv zeta. rewrite E.
  destruct (minute - getArrivalMinute p >? 10); simpl; auto.
Qed.

(** The first loop: it ends, and this is what it has done. *)
Lemma urgent_loop_run fuel st :
  (length (urgent_queue (sched st)) <= fuel)%nat ->
  exists k st',
    while fuel (urgent_cond max_to_serve) (urgent_body minute) st
      = Some (st', k) /\
    queue_pass max_to_serve minute k
      (urgent_queue (sched st)) (urgent_queue (sched st'))
      (served_patients (sched st)) (served_patients (sched st'))
      (total_waiting_time (sched st)) (total_waiting_time (sched st'))
      (served st) (served st') /\
    urgent_frame st' = urgent_frame st.
Proof.
  intros Hlen.
  destruct (queue_loop_run max_to_serve minute _ _
              (fun st => urgent_queue (sched st))
              (fun st => served_patients (sched st))
              (fun st => total_waiting_time (sched st))
              served urgent_frame
              urgent_cond_spec urgent_body_spec fuel st Hlen)
    as (k & st' & Hrun & Hk & Hq & Ha & Hw & Hn & Hf & Hex & Hle & Hlt).
  exists k, st'. unfold queue_pass. rewrite <- Hq. tauto.
Qed.

(** The second loop. *)
Lemma normal_loop_run fuel st :
  (length (normal_queue (sched st)) <= fuel)%nat ->
  exists k st',
    while fuel (normal_cond max_to_serve) (normal_body minute) st
      = Some (st', k) /\
    queue_pass max_to_serve minute k
      (normal_queue (sched st)) (normal_queue (sched st'))
      (served_patients (sched st)) (served_patients (sched st'))
      (total_waiting_time (sched st)) (total_waiting_time (sched st'))
      (served st) (served st') /\
    normal_frame st' = normal_frame st.
Proof.
  intros Hlen.
  destruct (queue_loop_run max_to_serve minute _ _
              (fun st => normal_queue (sched st))
              (fun st => served_patients (sched st))
              (fun st => total_waiting_time (sched st))
              served normal_frame
              normal_cond_spec normal_body_spec fuel st Hlen)
    as (k & st' & Hrun & Hk & Hq & Ha & Hw & Hn & Hf & Hex & Hle & Hlt).
  exists k, st'. unfold queue_pass. rewrite <- Hq. tauto.
Qed.

(** The call as a whole, under any bound that covers both queues. *)
Lemma servePatients_fuel_run fuel s :
  (length (urgent_queue s) <= fuel)%nat ->
  (length (normal_queue s) <= fuel)%nat ->
  exists ku kn st1 st2,
    urgent_phase fuel max_to_serve minute s = Some (st1, ku) /\
    normal_phase fuel max_to_serve minute st1 = Some (st2, kn) /\
    servePatients_fuel fuel max_to_serve minute s
      = Some (update_total_served st2, (ku + kn)%nat) /\
    queue_pass max_to_serve minute ku
      (urgent_queue s) (urgent_queue (sched st1))
      (served_patients s) (served_patients (sched st1))
      (total_waiting_time s) (total_waiting_time (sched st1))
      0 (served st1) /\
    urgent_frame st1 = urgent_frame (mkServeState s 0) /\
    queue_pass max_to_serve minute kn
      (normal_queue s) (normal_queue (sched st2))
      (served_patients (sched st1)) (served_patients (sched st2))
      (total_waiting_time (sched st1)) (total_waiting_time (sched st2))
      (served st1) (served st2) /\
    normal_frame st2 = normal_frame st1.
Proof.
  intros Hu Hn.
  destruct (urgent_loop_run fuel (mkServeState s 0) Hu)
    as (ku & st1 & Hrun1 & Hpass1 & Hfr1).
  assert (Hnq : normal_queue (sched st1) = normal_queue s).
  { unfold urgent_frame in Hfr1. simpl in Hfr1. congruence. }
  destruct (normal_loop_run fuel st1) as (kn & st2 & Hrun2 & Hpass2 & Hfr2).
  { rewrite Hnq. exact Hn. }
  exists ku, kn, st1, st2.
  unfold servePatients_fuel, urgent_phase, normal_phase.
  rewrite Hrun1, Hrun2. rewrite Hnq in Hpass2.
  simpl in Hpass1. tauto.
Qed.

(** The same for [servePatients]. *)
Lemma servePatients_run s :
  exists ku kn st1 st2,
    urgent_phase (serve_fuel s) max_to_serve minute s = Some (st1, ku) /\
    normal_phase (serve_fuel s) max_to_serve minute st1
      = Some (st2, kn) /\
    servePatients max_to_serve minute s = update_total_served st2 /\
    queue_pass max_to_serve minute ku
      (urgent_queue s) (urgent_queue (sched st1))
      (served_patients s) (served_patients (sched st1))
      (total_waiting_time s) (total_waiting_time (sched st1))
      0 (served st1) /\
    urgent_frame st1 = urgent_frame (mkServeState s 0) /\
    queue_pass max_to_serve minute kn
      (normal_queue s) (normal_queue (sched st2))
      (served_patients (sched st1)) (served_patients (sched st2))
      (total_waiting_time (sched st1)) (total_waiting_time (sched st2))
      (served st1) (served st2) /\
    normal_frame st2 = normal_frame st1.
Proof.
  destruct (servePatients_fuel_run (serve_fuel s) s)
    as (ku & kn & st1 & st2 & H1 & H2 & H3 & H).
  { unfold serve_fuel. lia. }
  { unfold serve_fuel. lia. }
  exists ku, kn, st1, st2. unfold servePatients. rewrite H3. tauto.
Qed.
End ServePatients.

(** The state after a call, written out: [ku] patients have left the
    urgent queue and [kn] the normal queue; those in time were appended
    to [served_patients], urgent ones first. *)
Lemma servePatients_shape (max_to_serve minute : Z) (s : Scheduler) :
  exists ku kn,
    let U := filter (in_time minute) (firstn ku (urgent_queue s)) in
    let N := filter (in_time minute) (firstn kn (normal_queue s)) in
    servePatients max_to_serve minute s =
      mkScheduler (skipn ku (urgent_queue s)) (skipn kn (normal_queue s))
        (served_patients s ++ U ++ N)
        (total_patients s) (total_urgent s) (total_normal s)
        (total_waiting_time s + sum_Z (map (waiting minute) (U ++ N)))
        (total_served s + Z.of_nat (length (U ++ N))) /\
    (ku <= length (urgent_queue s))%nat /\
    (kn <= length (normal_queue s))%nat /\
    (skipn ku (urgent_queue s) = [] \/ max_to_serve <= Z.of_nat (length U)) /\
    (kn <> O -> Z.of_nat (length U) < max_to_serve) /\
    (0 <= max_to_serve -> Z.of_nat (length (U ++ N)) <= max_to_serve).
Proof.
  destruct (servePatients_run max_to_serve minute s)
    as (ku & kn & st1 & st2 & _ & _ & Hs & Hp1 & Hf1 & Hp2 & Hf2).
  exists ku, kn. cbv zeta.
  destruct Hp1 as (Hk1 & Hq1 & Ha1 & Hw1 & Hn1 & Hex1 & Hle1 & _).
  destruct Hp2 as (Hk2 & Hq2 & Ha2 & Hw2 & Hn2 & Hex2 & Hle2 & Hlt2).
  unfold urgent_frame in Hf1. unfold normal_frame in Hf2.
  simpl in Hf1, Hf2.
  injection Hf1 as Hnq Htp Htu Htn Hts.
  injection Hf2 as Huq' Htp' Htu' Htn' Hts'.
  rewrite Hs. unfold update_total_served. cbv zeta.
  rewrite Hq2, Huq', Hq1, Ha2, Ha1, Htp', Htp, Htu', Htu, Htn', Htn,
          Hw2, Hw1, Hts', Hts, Hn2, Hn1.
  rewrite <- !app_assoc, map_app, length_app, Nat2Z.inj_add.
  rewrite sum_Z_app. simpl Z.add.
  split; [f_equal; lia|].
  rewrite Hn1 in *. rewrite Hn2 in *. simpl in *.
  repeat split; auto; try lia.
  destruct Hex1 as [H|H]; [left; congruence | right; lia].
Qed.

(** The entries a call appends are the patients of the shape lemma. *)
Lemma newly_served_app (s : Scheduler) (l : list Patient) (s' : Scheduler) :
  served_patients s' = served_patients s ++ l -> newly_served s s' = l.
Proof.
  intros H. unfold newly_served. rewrite H, skipn_app, skipn_all.
  rewrite Nat.sub_diag. reflexivity.
Qed.

Lemma in_time_spec (minute : Z) (p : Patient) :
  in_time minute p = true <-> waiting minute p <= 10.
Proof.
  unfold in_time. rewrite negb_true_iff, Z.gtb_ltb, Z.ltb_ge. reflexivity.
Qed.

(** ** Enrolment counters *)

Lemma addPatient_total_patients (s : Scheduler) (p : Patient) :
  total_patients (addPatient s p) = total_patients s + 1.
Proof. unfold addPatient. destruct (String.eqb _ _); reflexivity. Qed.

Lemma addPatient_category (s : Scheduler) (p : Patient) :
  (total_urgent (addPatient s p) = total_urgent s + 1 /\
   total_normal (addPatient s p) = total_normal s) \/
  (total_urgent (addPatient s p) = total_urgent s /\
   total_normal (addPatient s p) = total_normal s + 1).
Proof. unfold addPatient. destruct (String.eqb _ _); simpl; auto. Qed.

Lemma addPatient_fold (ps : list Patient) :
  forall s,
    total_patients (fold_left addPatient ps s)
      = total_patients s + Z.of_nat (length ps) /\
    total_urgent (fold_left addPatient ps s)
    + total_normal (fold_left addPatient ps s)
      = total_urgent s + total_normal s + Z.of_nat (length ps).
Proof.
  induction ps as [|p ps IH]; intros s.
  - simpl. lia.
  - cbn [fold_left length]. destruct (IH (addPatient s p)) as [H1 H2].
    rewrite H1, H2, addPatient_total_patients, Nat2Z.inj_succ.
    destruct (addPatient_category s p) as [[-> ->]|[-> ->]]; lia.
Qed.

(** C5.  After any sequence of [addPatient] calls on a new scheduler,
    [total_patients] is the sum of [total_urgent] and [total_normal] and
    is the number of calls made; and a single call, in any state, adds
    one to [total_patients] and one to exactly one of [total_urgent] and
    [total_normal], leaving the other as it was. *)
Theorem addPatient_counters (ps : list Patient) :
  let s := fold_left addPatient ps new_Scheduler in
  total_patients s = total_urgent s + total_normal s /\
  total_patients s = Z.of_nat (length ps) /\
  forall s0 p,
    total_patients (addPatient s0 p) = total_patients s0 + 1 /\
    ((total_urgent (addPatient s0 p) = total_urgent s0 + 1 /\
      total_normal (addPatient s0 p) = total_normal s0) \/
     (total_urgent (addPatient s0 p) = total_urgent s0 /\
      total_normal (addPatient s0 p) = total_normal s0 + 1)).
Proof.
  cbv zeta. destruct (addPatient_fold ps new_Scheduler) as [H1 H2].
  simpl in H1, H2. repeat split.
  - lia.
  - lia.
  - apply addPatient_total_patients.
  - apply addPatient_category.
Qed.

(** ** What a serving pass leaves alone *)

(** C9.  [servePatients] changes none of [total_patients], [total_urgent]
    and [total_normal], whatever it discards; and on a scheduler whose
    two queues are empty it changes nothing at all. *)
Theorem servePatients_frame (max_to_serve minute : Z) (s : Scheduler) :
  total_patients (servePatients max_to_serve minute s) = total_patients s /\
  total_urgent (servePatients max_to_serve minute s) = total_urgent s /\
  total_normal (servePatients max_to_serve minute s) = total_normal s /\
  (urgent_queue s = [] -> normal_queue s = [] ->
   servePatients max_to_serve minute s = s).
Proof.
  destruct (servePatients_shape max_to_serve minute s)
    as (ku & kn & Hs & _).
  cbv zeta in Hs. rewrite Hs. simpl. repeat split.
  intros Hu Hn. rewrite Hu, Hn, !firstn_nil, !skipn_nil. simpl.
  rewrite app_nil_r, !Z.add_0_r. destruct s; simpl in *; congruence.
Qed.

Lemma servePatients_frame_witness :
  urgent_queue served_one = [] /\ normal_queue served_one = [] /\
  servePatients 4 6 served_one = served_one.
Proof.
  split; [reflexivity|]. split; [reflexivity|].
  apply (servePatients_frame 4 6 served_one); reflexivity.
Defined.

(** ** The capacity of a serving pass *)

(** C3.  With a capacity that is not negative, a call appends at most
    [max_to_serve] patients to [served_patients], and [total_served]
    grows by the number of patients appended; the patients that were
    discarded count for nothing. *)
Theorem servePatients_capacity (max_to_serve minute : Z) (s : Scheduler) :
  0 <= max_to_serve ->
  let s' := servePatients max_to_serve minute s in
  served_patients s' = served_patients s ++ newly_served s s' /\
  total_served s' - total_served s = Z.of_nat (length (newly_served s s')) /\
  Z.of_nat (length (newly_served s s')) <= max_to_serve.
Proof.
  intros Hcap. cbv zeta.
  destruct (servePatients_shape max_to_serve minute s)
    as (ku & kn & Hs & _ & _ & _ & _ & Hle).
  cbv zeta in Hs, Hle.
  rewrite (newly_served_app s _ _ (f_equal served_patients Hs)).
  rewrite Hs. simpl. repeat split; auto; lia.
Qed.

Lemma servePatients_capacity_witness :
  0 <= 1 /\
  let s := busy_scheduler in
  let s' := servePatients 1 20 s in
  served_patients s' = served_patients s ++ newly_served s s' /\
  total_served s' - total_served s = Z.of_nat (length (newly_served s s')) /\
  Z.of_nat (length (newly_served s s')) <= 1.
Proof.
  split; [lia|]. cbv zeta. apply servePatients_capacity. lia.
Defined.

(** ** The serving log *)

Lemma log_call_spec (s : Scheduler) (c : Call) :
  served_patients (call s c)
    = served_patients s ++ map fst (log_call s c) /\
  total_waiting_time (call s c)
    = total_waiting_time s + sum_Z (map logged_wait (log_call s c)) /\
  total_served (call s c)
    = total_served s + Z.of_nat (length (log_call s c)) /\
  Forall (fun e => logged_wait e <= 10) (log_call s c).
Proof.
  destruct c as [p | max_to_serve minute]; simpl.
  - unfold addPatient. destruct (String.eqb _ _); simpl;
      rewrite app_nil_r, !Z.add_0_r; auto.
  - destruct (servePatients_shape max_to_serve minute s)
      as (ku & kn & Hs & _).
    cbv zeta in Hs.
    rewrite (newly_served_app s _ _ (f_equal served_patients Hs)).
    rewrite Hs. simpl.
    rewrite !map_map, length_map. simpl. rewrite map_id.
    repeat split; auto.
    apply Forall_map. simpl. apply Forall_app. split.
    + apply Forall_forall. intros p Hp.
      apply filter_In in Hp as [_ Hp]. apply in_time_spec, Hp.
    + apply Forall_forall. intros p Hp.
      apply filter_In in Hp as [_ Hp]. apply in_time_spec, Hp.
Qed.

Lemma serving_log_spec (cs : list Call) :
  forall s,
    served_patients (run s cs)
      = served_patients s ++ map fst (serving_log s cs) /\
    total_waiting_time (run s cs)
      = total_waiting_time s + sum_Z (map logged_wait (serving_log s cs)) /\
    total_served (run s cs)
      = total_served s + Z.of_nat (length (serving_log s cs)) /\
    Forall (fun e => logged_wait e <= 10) (serving_log s cs).
Proof.
  induction cs as [|c cs IH]; intros s.
  - simpl. rewrite app_nil_r, !Z.add_0_r. auto.
  - cbn [run fold_left serving_log].
    destruct (IH (call s c)) as (H1 & H2 & H3 & H4).
    destruct (log_call_spec s c) as (L1 & L2 & L3 & L4).
    unfold run in H1, H2, H3. rewrite H1, H2, H3, L1, L2, L3.
    rewrite !map_app, length_app, sum_Z_app, Nat2Z.inj_add, <- app_assoc.
    repeat split; try lia.
    apply Forall_app; auto.
Qed.

(** C2.  In a call [servePatients max_to_serve minute], the patients that
    leave the queues are the first [ku] of the urgent queue and the first
    [kn] of the normal queue, and what remains of each queue is what
    followed them: nothing is put back.  Of the patients that left, those
    that waited more than 10 minutes are not appended to
    [served_patients], are not counted in [total_served] and add nothing
    to [total_waiting_time].  Over any sequence of calls, every entry of
    [served_patients] was appended by a call at whose [minute] it had
    waited at most 10 minutes. *)
Theorem stale_patients_are_discarded (max_to_serve minute : Z)
    (s : Scheduler) :
  (exists ku kn,
     let s' := servePatients max_to_serve minute s in
     let popped_u := firstn ku (urgent_queue s) in
     let popped_n := firstn kn (normal_queue s) in
     urgent_queue s = popped_u ++ urgent_queue s' /\
     normal_queue s = popped_n ++ normal_queue s' /\
     newly_served s s'
       = filter (fun p => negb (minute - getArrivalMinute p >? 10)) popped_u
         ++ filter (fun p => negb (minute - getArrivalMinute p >? 10))
                   popped_n /\
     served_patients s' = served_patients s ++ newly_served s s' /\
     total_served s'
       = total_served s + Z.of_nat (length (newly_served s s')) /\
     total_waiting_time s'
       = total_waiting_time s
         + sum_Z (map (fun p => minute - getArrivalMinute p)
                      (newly_served s s')) /\
     Forall (fun p => minute - getArrivalMinute p <= 10)
            (newly_served s s')) /\
  (forall cs,
     served_patients (run s cs)
       = served_patients s ++ map fst (serving_log s cs) /\
     Forall (fun e => snd e - getArrivalMinute (fst e) <= 10)
            (serving_log s cs)).
Proof.
  split.
  - destruct (servePatients_shape max_to_serve minute s)
      as (ku & kn & Hs & _).
    exists ku, kn. cbv zeta in *.
    rewrite (newly_served_app s _ _ (f_equal served_patients Hs)).
    rewrite Hs. simpl. rewrite !firstn_skipn.
    repeat split; auto.
    apply Forall_app. split; apply Forall_forall; intros p Hp;
      apply filter_In in Hp as [_ Hp]; apply in_time_spec, Hp.
  - intros cs. destruct (serving_log_spec cs s) as (H1 & _ & _ & H4).
    split; assumption.
Qed.

(** ** The average waiting time *)


(** ** Monotonicity of the counters *)

Lemma sum_Z_nonneg (l : list Z) : Forall (fun x => 0 <= x) l -> 0 <= sum_Z l.
Proof.
  induction 1 as [|x l Hx _ IH]; simpl; lia.
Qed.

Lemma served_from_queue (minute : Z) (k : nat) (q : list Patient)
    (P : Patient -> Prop) :
  Forall P q -> Forall P (filter (in_time minute) (firstn k q)).
Proof.
  intros H. apply Forall_forall. intros p Hp.
  apply filter_In in Hp as [Hp _].
  rewrite Forall_forall in H. apply H.
  rewrite <- (firstn_skipn k q). apply in_or_app. left. exact Hp.
Qed.

(** *** The checked calls and the calls in [Z] *)

Lemma int_result_some (z z' : Z) : int_result z = Some z' -> z' = z.
Proof.
  unfold int_result. destruct (in_int z); congruence.
Qed.

Lemma while_int_unfold {A : Type} (fuel : nat) (cond : A -> bool)
    (body : A -> option A) (st : A) :
  while_int fuel cond body st =
  if cond st then
    match fuel with
    | O => OutOfFuel
    | S fuel' =>
        match body st with
        | Some st1 => while_int fuel' cond body st1
        | None => Overflow
        end
    end
  else Done st.
Proof. destruct fuel; reflexivity. Qed.

Section CheckedLoop.
Context {A : Type}.
Variable cond : A -> bool.
Variable body_int : A -> option A.
Variable body : A -> A.
Variable measure : A -> nat.

Hypothesis body_agrees : forall st st1,
  body_int st = Some st1 -> st1 = body st.
Hypothesis body_decreases : forall st,
  cond st = true -> (measure (body st) < measure st)%nat.

(** A checked loop that returns has made the iterations of the loop in
    [Z]. *)
Lemma while_int_agrees :
  forall fuel st st',
    while_int fuel cond body_int st = Done st' ->
    exists n, while fuel cond body st = Some (st', n).
Proof.
  induction fuel as [|f IH]; intros st st';
    rewrite while_int_unfold, while_unfold;
    destruct (cond st); try discriminate.
  - intros H. injection H as <-. exists O. reflexivity.
  - destruct (body_int st) as [st1|] eqn:E; [|discriminate].
    apply body_agrees in E. subst st1. intros H.
    destruct (IH _ _ H) as (n & ->). exists (S n). reflexivity.
  - intros H. injection H as <-. exists O. reflexivity.
Qed.

(** A checked loop is not stopped by a bound that covers its measure. *)
Lemma while_int_fuel :
  forall fuel st,
    (measure st <= fuel)%nat ->
    while_int fuel cond body_int st <> OutOfFuel.
Proof.
  induction fuel as [|f IH]; intros st Hm;
    rewrite while_int_unfold; destruct (cond st) eqn:Hc;
    try discriminate.
  - apply body_decreases in Hc. lia.
  - destruct (body_int st) as [st1|] eqn:E; [|discriminate].
    apply body_agrees in E. subst st1.
    apply IH. apply body_decreases in Hc. lia.
Qed.
End CheckedLoop.

Lemma addPatient_int_agrees (s : Scheduler) (p : Patient) (s' : Scheduler) :
  addPatient_int s p = Some s' -> s' = addPatient s p.
Proof.
  unfold addPatient_int, addPatient.
  destruct (String.eqb _ _).
  - destruct (int_result (total_urgent s + 1)) as [tu|] eqn:E1;
      [|discriminate].
    destruct (int_result (total_patients s + 1)) as [tp|] eqn:E2;
      [|discriminate].
    apply int_result_some in E1, E2. subst. congruence.
  - destruct (int_result (total_normal s + 1)) as [tn|] eqn:E1;
      [|discriminate].
    destruct (int_result (total_patients s + 1)) as [tp|] eqn:E2;
      [|discriminate].
    apply int_result_some in E1, E2. subst. congruence.
Qed.

Lemma urgent_body_int_agrees (minute : Z) (st st1 : ServeState) :
  urgent_body_int minute st = Some st1 -> st1 = urgent_body minute st.
Proof.
  unfold urgent_body_int, urgent_body. cbv zeta.
  destruct (urgent_queue (sched st)) as [|p rest]; [congruence|].
  destruct (int_result (minute - getArrivalMinute p)) as [w|] eqn:E;
    [|discriminate].
  apply int_result_some in E. subst w.
  destruct (minute - getArrivalMinute p >? 10); [congruence|].
  destruct (int_result (total_waiting_time (sched st) + _)) as [tw|] eqn:E1;
    [|discriminate].
  destruct (int_result (served st + 1)) as [sv|] eqn:E2; [|discriminate].
  apply int_result_some in E1, E2. subst. congruence.
Qed.

Lemma normal_body_int_agrees (minute : Z) (st st1 : ServeState) :
  normal_body_int minute st = Some st1 -> st1 = normal_body minute st.
Proof.
  unfold normal_body_int, normal_body. cbv zeta.
  destruct (normal_queue (sched st)) as [|p rest]; [congruence|].
  destruct (int_result (minute - getArrivalMinute p)) as [w|] eqn:E;
    [|discriminate].
  apply int_result_some in E. subst w.
  destruct (minute - getArrivalMinute p >? 10); [congruence|].
  destruct (int_result (total_waiting_time (sched st) + _)) as [tw|] eqn:E1;
    [|discriminate].
  destruct (int_result (served st + 1)) as [sv|] eqn:E2; [|discriminate].
  apply int_result_some in E1, E2. subst. congruence.
Qed.

Lemma urgent_body_decreases (max_to_serve minute : Z) (st : ServeState) :
  urgent_cond max_to_serve st = true ->
  (length (urgent_queue (sched (urgent_body minute st)))
   < length (urgent_queue (sched st)))%nat.
Proof.
  intros Hc.
  pose proof (queue_loop_step max_to_serve minute _ _
                (fun st => urgent_queue (sched st))
                (fun st => served_patients (sched st))
                (fun st => total_waiting_time (sched st))
                served urgent_frame
                (urgent_cond_spec max_to_serve) (urgent_body_spec minute)
                st Hc) as H.
  simpl in H. lia.
Qed.

Lemma normal_body_decreases (max_to_serve minute : Z) (st : ServeState) :
  normal_cond max_to_serve st = true ->
  (length (normal_queue (sched (normal_body minute st)))
   < length (normal_queue (sched st)))%nat.
Proof.
  intros Hc.
  pose proof (queue_loop_step max_to_serve minute _ _
                (fun st => normal_queue (sched st))
                (fun st => served_patients (sched st))
                (fun st => total_waiting_time (sched st))
                served normal_frame
                (normal_cond_spec max_to_serve) (normal_body_spec minute)
                st Hc) as H.
  simpl in H. lia.
Qed.

(** A checked [servePatients] that returns, returns what [servePatients]
    computes in [Z]. *)
Lemma servePatients_int_agrees (max_to_serve minute : Z)
    (s s' : Scheduler) :
  servePatients_int max_to_serve minute s = Done s' ->
  s' = servePatients max_to_serve minute s.
Proof.
  unfold servePatients_int.
  destruct (while_int _ (urgent_cond _) _ _) as [st1| |] eqn:E1;
    try discriminate.
  destruct (while_int _ (normal_cond _) _ _) as [st2| |] eqn:E2;
    try discriminate.
  cbv zeta.
  destruct (int_result _) as [ts|] eqn:E3; [|discriminate].
  apply int_result_some in E3. subst ts.
  intros H. injection H as <-.
  apply (while_int_agrees _ _ (urgent_body minute)
           (urgent_body_int_agrees minute)) in E1 as (n1 & E1).
  apply (while_int_agrees _ _ (normal_body minute)
           (normal_body_int_agrees minute)) in E2 as (n2 & E2).
  unfold servePatients, servePatients_fuel, urgent_phase, normal_phase.
  rewrite E1, E2. reflexivity.
Qed.

(** The bound [serve_fuel] never stops a checked [servePatients]. *)
Lemma servePatients_int_fuel (max_to_serve minute : Z) (s : Scheduler) :
  servePatients_int max_to_serve minute s <> OutOfFuel.
Proof.
  unfold servePatients_int.
  destruct (while_int _ (urgent_cond _) _ _) as [st1| |] eqn:E1;
    try discriminate.
  - destruct (while_int _ (normal_cond _) _ _) as [st2| |] eqn:E2.
    + cbv zeta. destruct (int_result _); discriminate.
    + discriminate.
    + exfalso. revert E2.
      apply (while_int_fuel (normal_cond max_to_serve)
               (normal_body_int minute) (normal_body minute)
               (fun st => length (normal_queue (sched st)))
               (normal_body_int_agrees minute)
               (normal_body_decreases max_to_serve minute)).
      apply (while_int_agrees _ _ (urgent_body minute)
               (urgent_body_int_agrees minute)) in E1 as (n1 & E1).
      destruct (urgent_loop_run max_to_serve minute (serve_fuel s)
                  (mkServeState s 0)) as (k & st' & Hrun & _ & Hf).
      { unfold serve_fuel. simpl. lia. }
      rewrite E1 in Hrun. injection Hrun as <- <-.
      unfold urgent_frame in Hf. simpl in Hf.
      injection Hf as Hnq _ _ _ _.
      rewrite Hnq. unfold serve_fuel. lia.
  - exfalso. revert E1.
    apply (while_int_fuel (urgent_cond max_to_serve)
             (urgent_body_int minute) (urgent_body minute)
             (fun st => length (urgent_queue (sched st)))
             (urgent_body_int_agrees minute)
             (urgent_body_decreases max_to_serve minute)).
    unfold serve_fuel. simpl. lia.
Qed.

(** C7, as the code has it.  A call is never stopped by the bound on its
    loops: it returns, unless one of its [int] operations leaves the
    range of [int].  When it returns, it returns the state computed in
    [Z], and it has made none of [total_patients], [total_urgent],
    [total_normal] and [total_served] smaller.  [total_waiting_time] is
    not made smaller by [addPatient], nor by a [servePatients] call that
    serves no patient whose arrival minute is later than [minute]. *)
Theorem counters_never_decrease (s : Scheduler) (c : Call) :
  call_int s c <> OutOfFuel /\
  forall s',
    call_int s c = Done s' ->
    s' = call s c /\
    total_patients s <= total_patients s' /\
    total_urgent s <= total_urgent s' /\
    total_normal s <= total_normal s' /\
    total_served s <= total_served s' /\
    (match c with
     | CallAdd _ => True
     | CallServe _ minute =>
         Forall (fun p => getArrivalMinute p <= minute) (newly_served s s')
     end ->
     total_waiting_time s <= total_waiting_time s').
Proof.
  split.
  - destruct c as [p | max_to_serve minute]; simpl.
    + destruct (addPatient_int s p); discriminate.
    + apply servePatients_int_fuel.
  - intros s' Hdone.
    assert (Hs' : s' = call s c).
    { destruct c as [p | max_to_serve minute]; simpl in *.
      - destruct (addPatient_int s p) as [s1|] eqn:E; [|discriminate].
        injection Hdone as <-. apply addPatient_int_agrees. exact E.
      - apply servePatients_int_agrees. exact Hdone. }
    split; [exact Hs'|]. subst s'. clear Hdone.
    destruct c as [p | max_to_serve minute]; simpl.
    + unfold addPatient. destruct (String.eqb _ _); simpl.
      all: repeat split; try lia.
    + destruct (servePatients_shape max_to_serve minute s)
        as (ku & kn & Hs & _).
      cbv zeta in Hs.
      rewrite (newly_served_app s _ _ (f_equal served_patients Hs)).
      rewrite Hs. simpl.
      repeat split; try lia.
      intros Hserved.
      assert (0 <= sum_Z (map (waiting minute)
                (filter (in_time minute) (firstn ku (urgent_queue s))
                 ++ filter (in_time minute) (firstn kn (normal_queue s)))));
        [|lia].
      apply sum_Z_nonneg, Forall_map.
      eapply Forall_impl; [|exact Hserved].
      unfold waiting. simpl. intros; lia.
Qed.

(** A call that serves a patient behind one who arrives only at minute 9:
    the patient served arrived at minute 2 and waits 4 minutes. *)
Lemma counters_never_decrease_witness :
  let s := mkScheduler [example_patient "Urgent" 2]
                       [example_patient "Normal" 9] [] 2 1 1 0 0 in
  let s' := mkScheduler [] [example_patient "Normal" 9]
                        [example_patient "Urgent" 2] 2 1 1 4 1 in
  call_int s (CallServe 1 6) = Done s' /\
  Forall (fun p => getArrivalMinute p <= 6) (newly_served s s') /\
  total_waiting_time s <= total_waiting_time s'.
Proof.
  cbv zeta. split; [reflexivity|].
  split; [repeat constructor; simpl; lia|].
  apply (counters_never_decrease
           (mkScheduler [example_patient "Urgent" 2]
                        [example_patient "Normal" 9] [] 2 1 1 0 0)
           (CallServe 1 6)).
  - reflexivity.
  - repeat constructor. simpl. lia.
Defined.

(** A call in which [total_waiting_time += waiting_time] leaves the range
    of [int]: the checked call reports it. *)
Example waiting_time_overflow :
  call_int (mkScheduler [example_patient "Urgent" 0] [] [] 1 1 0
                        2147483644 0)
           (CallServe 1 5)
  = Overflow.
Proof. reflexivity. Qed.

(** C7, as the claim has it, fails for [total_waiting_time]: a patient
    that arrived at minute 5 and is served with [minute = 0] has waited
    [-5] minutes. *)
Lemma total_waiting_time_decreases :
  let s := run new_Scheduler [CallAdd (example_patient "Urgent" 5)] in
  total_waiting_time s = 0 /\
  total_waiting_time (call s (CallServe 1 0)) = -5 /\
  ~ total_waiting_time s <= total_waiting_time (call s (CallServe 1 0)).
Proof.
  cbv zeta. split; [reflexivity|]. split; [reflexivity|].
  vm_compute. intros H. apply H. reflexivity.
Qed.

(** ** Statistics *)

(** C8.  When [total_served] is 0, [displayStatistics] prints that the
    average is not available and its output holds no quotient; whenever
    the output holds a quotient, its divisor is [total_served] and is
    positive. *)
Theorem no_average_without_served (s : Scheduler) :
  (total_served s = 0 ->
   In (OStr "Average Waiting Time: N/A (no patients served)")
      (displayStatistics s) /\
   existsb is_division (displayStatistics s) = false) /\
  (forall num den,
     In (OQuotient num den) (displayStatistics s) ->
     num = total_waiting_time s /\ den = total_served s /\
     total_served s > 0).
Proof.
  split.
  - intros H. unfold displayStatistics. rewrite H. simpl.
    split; [|reflexivity]. do 13 right. left. reflexivity.
  - intros num den H. unfold displayStatistics in H.
    apply in_app_or in H as [H|H].
    + simpl in H.
      repeat (destruct H as [H|H]; [discriminate|]). contradiction.
    + destruct (total_served s >? 0) eqn:E; simpl in H.
      * repeat (destruct H as [H|H];
                [first [discriminate | injection H as <- <-]|]).
        -- repeat split. apply Z.gtb_lt in E. lia.
        -- contradiction.
      * repeat (destruct H as [H|H]; [discriminate|]). contradiction.
Qed.

Lemma no_average_without_served_witness :
  total_served discarded_one = 0 /\
  In (OStr "Average Waiting Time: N/A (no patients served)")
     (displayStatistics discarded_one) /\
  existsb is_division (displayStatistics discarded_one) = false.
Proof.
  split; [reflexivity|].
  apply (no_average_without_served discarded_one). reflexivity.
Defined.

(** ** Termination *)

(** Any two bounds that cover the queues give the same result. *)
Lemma servePatients_fuel_irrelevant (max_to_serve minute : Z)
    (s : Scheduler) (fuel fuel' : nat) (r r' : Scheduler * nat) :
  servePatients_fuel fuel max_to_serve minute s = Some r ->
  servePatients_fuel fuel' max_to_serve minute s = Some r' ->
  r = r'.
Proof.
  unfold servePatients_fuel, urgent_phase, normal_phase.
  intros H H'.
  destruct (while fuel _ _ _) as [[st1 n1]|] eqn:E1; [|discriminate].
  destruct (while fuel' _ _ _) as [[st1' n1']|] eqn:E1'; [|discriminate].
  pose proof (while_fuel_irrelevant _ _ _ _ _ _ _ E1 E1') as E.
  injection E as <- <-.
  destruct (while fuel _ _ st1) as [[st2 n2]|] eqn:E2; [|discriminate].
  destruct (while fuel' _ _ st1) as [[st2' n2']|] eqn:E2'; [|discriminate].
  pose proof (while_fuel_irrelevant _ _ _ _ _ _ _ E2 E2') as E.
  injection E as <- <-.
  congruence.
Qed.

(** [servePatients] is the result of [servePatients_fuel] under the bound
    [serve_fuel]. *)
Lemma servePatients_fuel_enough (max_to_serve minute : Z) (s : Scheduler) :
  exists n,
    servePatients_fuel (serve_fuel s) max_to_serve minute s
      = Some (servePatients max_to_serve minute s, n).
Proof.
  destruct (servePatients_fuel_run max_to_serve minute (serve_fuel s) s)
    as (ku & kn & st1 & st2 & _ & _ & H & _).
  { unfold serve_fuel. lia. }
  { unfold serve_fuel. lia. }
  exists (ku + kn)%nat. unfold servePatients. rewrite H. reflexivity.
Qed.

(** C10.  Under any bound that covers each queue, [servePatients] returns,
    after a number of loop iterations that is at most the sum of the
    lengths of the two queues at entry; an iteration of either loop that
    is entered takes exactly one patient out of the queue of that loop
    and leaves the other queue as it was. *)
Theorem servePatients_terminates (fuel : nat) (max_to_serve minute : Z)
    (s : Scheduler) :
  (length (urgent_queue s) <= fuel)%nat ->
  (length (normal_queue s) <= fuel)%nat ->
  (exists n,
     servePatients_fuel fuel max_to_serve minute s
       = Some (servePatients max_to_serve minute s, n) /\
     (n <= length (urgent_queue s) + length (normal_queue s))%nat) /\
  (forall st,
     urgent_cond max_to_serve st = true ->
     S (length (urgent_queue (sched (urgent_body minute st))))
       = length (urgent_queue (sched st)) /\
     normal_queue (sched (urgent_body minute st))
       = normal_queue (sched st)) /\
  (forall st,
     normal_cond max_to_serve st = true ->
     S (length (normal_queue (sched (normal_body minute st))))
       = length (normal_queue (sched st)) /\
     urgent_queue (sched (normal_body minute st))
       = urgent_queue (sched st)).
Proof.
  intros Hu Hn. split; [|split].
  - destruct (servePatients_fuel_run max_to_serve minute fuel s Hu Hn)
      as (ku & kn & st1 & st2 & _ & _ & H & Hp1 & _ & Hp2 & _).
    destruct (servePatients_fuel_enough max_to_serve minute s) as (n' & H').
    pose proof (servePatients_fuel_irrelevant _ _ _ _ _ _ _ H H') as E.
    injection E as E1 E2.
    exists (ku + kn)%nat. rewrite H, E1. split; [reflexivity|].
    destruct Hp1 as (Hk1 & _). destruct Hp2 as (Hk2 & _). lia.
  - intros st Hc. split.
    + apply (queue_loop_step max_to_serve minute _ _
               (fun st => urgent_queue (sched st))
               (fun st => served_patients (sched st))
               (fun st => total_waiting_time (sched st))
               served urgent_frame
               (urgent_cond_spec max_to_serve) (urgent_body_spec minute)).
      exact Hc.
    + rewrite urgent_cond_spec in Hc. apply andb_true_iff in Hc as [_ Hc].
      destruct (urgent_queue (sched st)) as [|p rest] eqn:E; [discriminate|].
      destruct (urgent_body_spec minute st p rest E) as (_ & Hf & _).
      unfold urgent_frame in Hf. simpl in Hf. congruence.
  - intros st Hc. split.
    + apply (queue_loop_step max_to_serve minute _ _
               (fun st => normal_queue (sched st))
               (fun st => served_patients (sched st))
               (fun st => total_waiting_time (sched st))
               served normal_frame
               (normal_cond_spec max_to_serve) (normal_body_spec minute)).
      exact Hc.
    + rewrite normal_cond_spec in Hc. apply andb_true_iff in Hc as [_ Hc].
      destruct (normal_queue (sched st)) as [|p rest] eqn:E; [discriminate|].
      destruct (normal_body_spec minute st p rest E) as (_ & Hf & _).
      unfold normal_frame in Hf. simpl in Hf. congruence.
Qed.

Lemma servePatients_terminates_witness :
  (length (urgent_queue busy_scheduler) <= 3)%nat /\
  (length (normal_queue busy_scheduler) <= 3)%nat /\
  exists n,
    servePatients_fuel 3 1 20 busy_scheduler
      = Some (servePatients 1 20 busy_scheduler, n) /\
    (n <= length (urgent_queue busy_scheduler)
          + length (normal_queue busy_scheduler))%nat.
Proof.
  split; [simpl; lia|]. split; [simpl; lia|].
  apply (servePatients_terminates 3 1 20 busy_scheduler); simpl; lia.
Defined.

(** ** Urgent patients first *)

(** C1.  A call runs the loop on the urgent queue and then the loop on
    the normal queue.  The first loop leaves the normal queue as it was
    and appends to [served_patients] only patients of the urgent queue;
    it ends with the urgent queue empty or with [served] at
    [max_to_serve].  What the call appends after that comes from the
    normal queue, and the second loop leaves the urgent queue as it was.
    In particular, with [max_to_serve >= 1], both queues non-empty and no
    patient waiting more than 10 minutes, the first patient appended is
    the head of the urgent queue. *)
Theorem urgent_patients_first (max_to_serve minute : Z) (s : Scheduler) :
  (exists ku kn st1 st2,
     urgent_phase (serve_fuel s) max_to_serve minute s = Some (st1, ku) /\
     normal_phase (serve_fuel s) max_to_serve minute st1 = Some (st2, kn) /\
     servePatients max_to_serve minute s = update_total_served st2 /\
     normal_queue (sched st1) = normal_queue s /\
     served_patients (sched st1)
       = served_patients s
         ++ filter (in_time minute) (firstn ku (urgent_queue s)) /\
     (urgent_queue (sched st1) = [] \/ max_to_serve <= served st1) /\
     served_patients (servePatients max_to_serve minute s)
       = served_patients (sched st1)
         ++ filter (in_time minute) (firstn kn (normal_queue s)) /\
     urgent_queue (servePatients max_to_serve minute s)
       = urgent_queue (sched st1) /\
     (kn <> O -> urgent_queue (sched st1) = [])) /\
  (1 <= max_to_serve ->
   urgent_queue s <> [] ->
   normal_queue s <> [] ->
   Forall (fun p => minute - getArrivalMinute p <= 10)
          (urgent_queue s ++ normal_queue s) ->
   exists u rest_queue rest_served,
     urgent_queue s = u :: rest_queue /\
     newly_served s (servePatients max_to_serve minute s)
       = u :: rest_served).
Proof.
  destruct (servePatients_run max_to_serve minute s)
    as (ku & kn & st1 & st2 & H1 & H2 & Hs & Hp1 & Hf1 & Hp2 & Hf2).
  destruct Hp1 as (Hk1 & Hq1 & Ha1 & Hw1 & Hn1 & Hex1 & Hle1 & _).
  destruct Hp2 as (Hk2 & Hq2 & Ha2 & Hw2 & Hn2 & Hex2 & Hle2 & Hlt2).
  unfold urgent_frame in Hf1. unfold normal_frame in Hf2.
  simpl in Hf1, Hf2.
  injection Hf1 as Hnq _ _ _ _. injection Hf2 as Huq _ _ _ _.
  assert (Hserved : served_patients (servePatients max_to_serve minute s)
                    = served_patients (sched st1)
                      ++ filter (in_time minute)
                                (firstn kn (normal_queue s))).
  { rewrite Hs. exact Ha2. }
  split.
  - exists ku, kn, st1, st2.
    repeat split; auto.
    + rewrite Hs. exact Huq.
    + intros Hkn. destruct Hex1 as [H|H]; [exact H|].
      specialize (Hlt2 Hkn). lia.
  - intros Hcap Hu _ Hfresh.
    destruct (urgent_queue s) as [|u rest_queue] eqn:E; [congruence|].
    destruct ku as [|ku].
    + simpl in Hq1, Hn1. destruct Hex1 as [H|H]; [congruence|lia].
    + exists u, rest_queue.
      apply Forall_app in Hfresh as [Hfu _].
      apply Forall_inv in Hfu.
      simpl in Ha1.
      assert (Hu_in : in_time minute u = true).
      { apply in_time_spec. exact Hfu. }
      rewrite Hu_in in Ha1.
      eexists. split; [reflexivity|]. apply newly_served_app.
      rewrite Hserved, Ha1, <- app_assoc. simpl. reflexivity.
Qed.

Lemma urgent_patients_first_witness :
  let s := addPatient
             (addPatient new_Scheduler (example_patient "Normal" 0))
             (example_patient "Urgent" 0) in
  1 <= 1 /\ urgent_queue s <> [] /\ normal_queue s <> [] /\
  Forall (fun p => 0 - getArrivalMinute p <= 10)
         (urgent_queue s ++ normal_queue s) /\
  exists u rest_queue rest_served,
    urgent_queue s = u :: rest_queue /\
    newly_served s (servePatients 1 0 s) = u :: rest_served.
Proof.
  cbv zeta.
  split; [lia|]. split; [discriminate|]. split; [discriminate|].
  split; [repeat constructor; simpl; lia|].
  apply (urgent_patients_first 1 0
           (addPatient
              (addPatient new_Scheduler (example_patient "Normal" 0))
              (example_patient "Urgent" 0))).
  - lia.
  - discriminate.
  - discriminate.
  - repeat constructor; simpl; lia.
Defined.

(** ** Manual entries *)

(** No manual entry reaches the urgent queue: the type that [main] hands
    to [addPatient] is in upper case, and [addPatient] compares it with
    the string [Urgent]. *)
Lemma manual_entry_not_urgent (gender0 : ascii) (minute : Z)
    (input : string) (s : Scheduler) :
  urgent_queue (manual_entry gender0 minute input s) = urgent_queue s /\
  total_urgent (manual_entry gender0 minute input s) = total_urgent s.
Proof.
  unfold manual_entry.
  destruct (extract_string _ _) as [ss1 id].
  destruct (extract_char _ _) as [ss2 gender].
  destruct (extract_string ss2 _) as [ss3 arrival_time].
  destruct (extract_string ss3 _) as [ss4 type0].
  destruct (String.eqb (string_map toupper type0) "URGENT") eqn:EU.
  - apply String.eqb_eq in EU. simpl. unfold addPatient. simpl.
    rewrite EU. simpl. auto.
  - destruct (String.eqb (string_map toupper type0) "NORMAL") eqn:EN.
    + apply String.eqb_eq in EN. simpl. unfold addPatient. simpl.
      rewrite EN. simpl. auto.
    + simpl. auto.
Qed.

(** C6 does not hold of the code.  The line [A1 M 10:30 urgent], entered
    at minute 0 on a new scheduler, puts the patient in the normal queue
    and adds one to [total_normal]; the urgent queue stays empty and
    [total_urgent] stays 0. *)
Theorem manual_urgent_entry_is_queued_as_normal (gender0 : ascii)
    (max_to_serve : Z) :
  main_iteration gender0 max_to_serve "A1 M 10:30 urgent"
                 (mkMainState new_Scheduler 0)
  = (mkMainState
       (mkScheduler [] [mkPatient "A1" "M" "10:30" "URGENT" 0] []
                    1 0 1 0 0)
       0,
     false).
Proof. reflexivity. Qed.

(** ** The scenarios of the specification *)

(** One urgent patient enrolled at minute 0 and served at minute 5. *)
Example scenario_served_after_five :
  let s := servePatients 1 5
             (addPatient new_Scheduler (example_patient "Urgent" 0)) in
  served_patients s = [example_patient "Urgent" 0] /\
  total_served s = 1 /\ total_waiting_time s = 5.
Proof. repeat split. Qed.

(** An urgent and a normal patient, capacity 1: the urgent one is served
    and the normal one stays queued. *)
Example scenario_urgent_before_normal :
  let s := servePatients 1 0
             (addPatient
                (addPatient new_Scheduler (example_patient "Urgent" 0))
                (example_patient "Normal" 0)) in
  served_patients s = [example_patient "Urgent" 0] /\
  normal_queue s = [example_patient "Normal" 0].
Proof. repeat split. Qed.

(** A patient that has waited 11 minutes is discarded. *)
Example scenario_discarded :
  served_patients discarded_one = [] /\
  total_served discarded_one = 0 /\
  urgent_queue discarded_one = [].
Proof. repeat split. Qed.

(** Two normal patients enrolled at minute 0 and served at minute 3. *)
Example scenario_two_normal :
  let s := servePatients 5 3
             (addPatient
                (addPatient new_Scheduler (example_patient "Normal" 0))
                (example_patient "Normal" 0)) in
  length (served_patients s) = 2%nat /\
  total_waiting_time s = 6 /\ total_served s = 2 /\
  Qeq (average_waiting_time s) (3 # 1).
Proof. repeat split. Qed.

(** * Further properties of the scheduler *)

(** The state after a call with everything the two loops guarantee about
    the numbers [ku] and [kn] of patients taken from the queues. *)
Lemma servePatients_exits (max_to_serve minute : Z) (s : Scheduler) :
  exists ku kn,
    let U := filter (in_time minute) (firstn ku (urgent_queue s)) in
    let N := filter (in_time minute) (firstn kn (normal_queue s)) in
    servePatients max_to_serve minute s =
      mkScheduler (skipn ku (urgent_queue s)) (skipn kn (normal_queue s))
        (served_patients s ++ U ++ N)
        (total_patients s) (total_urgent s) (total_normal s)
        (total_waiting_time s + sum_Z (map (waiting minute) (U ++ N)))
        (total_served s + Z.of_nat (length (U ++ N))) /\
    (ku <= length (urgent_queue s))%nat /\
    (kn <= length (normal_queue s))%nat /\
    (skipn ku (urgent_queue s) = [] \/ max_to_serve <= Z.of_nat (length U)) /\
    (skipn kn (normal_queue s) = [] \/
     max_to_serve <= Z.of_nat (length U) + Z.of_nat (length N)) /\
    (ku <> O -> 0 < max_to_serve) /\
    (kn <> O -> Z.of_nat (length U) < max_to_serve) /\
    (0 <= max_to_serve ->
     Z.of_nat (length U) + Z.of_nat (length N) <= max_to_serve).
Proof.
  destruct (servePatients_run max_to_serve minute s)
    as (ku & kn & st1 & st2 & _ & _ & Hs & Hp1 & Hf1 & Hp2 & Hf2).
  exists ku, kn. cbv zeta.
  destruct Hp1 as (Hk1 & Hq1 & Ha1 & Hw1 & Hn1 & Hex1 & Hle1 & Hlt1).
  destruct Hp2 as (Hk2 & Hq2 & Ha2 & Hw2 & Hn2 & Hex2 & Hle2 & Hlt2).
  unfold urgent_frame in Hf1. unfold normal_frame in Hf2.
  simpl in Hf1, Hf2.
  injection Hf1 as Hnq Htp Htu Htn Hts.
  injection Hf2 as Huq' Htp' Htu' Htn' Hts'.
  split.
  - rewrite Hs. unfold update_total_served. cbv zeta.
    rewrite Hq2, Huq', Hq1, Ha2, Ha1, Htp', Htp, Htu', Htu, Htn', Htn,
            Hw2, Hw1, Hts', Hts, Hn2, Hn1.
    rewrite <- !app_assoc, map_app, length_app, Nat2Z.inj_add, sum_Z_app.
    simpl Z.add. f_equal; lia.
  - rewrite Hn2, Hn1 in Hex2. rewrite Hn1 in Hex1, Hle1, Hlt2, Hle2.
    rewrite Hn2, Hn1 in Hle2. simpl in *.
    repeat split; auto; try lia.
    + destruct Hex1 as [H|H]; [left; congruence | right; lia].
    + destruct Hex2 as [H|H]; [left; congruence | right; lia].
Qed.

(** An invariant of [call] that holds of a new scheduler holds after any
    sequence of calls. *)
Lemma run_invariant (P : Scheduler -> Prop) :
  P new_Scheduler ->
  (forall s c, P s -> P (call s c)) ->
  forall cs, P (run new_Scheduler cs).
Proof.
  intros H0 Hstep cs. unfold run.
  generalize dependent new_Scheduler.
  induction cs as [|c cs IH]; intros s Hs; simpl; auto.
Qed.

Lemma filter_all (minute : Z) (l : list Patient) :
  Forall (fun p => minute - getArrivalMinute p <= 10) l ->
  filter (in_time minute) l = l.
Proof.
  induction 1 as [|p l Hp _ IH]; simpl; [reflexivity|].
  apply in_time_spec in Hp. rewrite Hp, IH. reflexivity.
Qed.

Lemma filter_none (minute : Z) (l : list Patient) :
  Forall (fun p => minute - getArrivalMinute p > 10) l ->
  filter (in_time minute) l = [].
Proof.
  induction 1 as [|p l Hp _ IH]; simpl; [reflexivity|].
  destruct (in_time minute p) eqn:E; [|exact IH].
  apply in_time_spec in E. unfold waiting in E. lia.
Qed.

Lemma Forall_firstn {A : Type} (P : A -> Prop) (k : nat) (l : list A) :
  Forall P l -> Forall P (firstn k l).
Proof.
  intros H. rewrite <- (firstn_skipn k l) in H.
  apply Forall_app in H. tauto.
Qed.

Lemma Forall_skipn {A : Type} (P : A -> Prop) (k : nat) (l : list A) :
  Forall P l -> Forall P (skipn k l).
Proof.
  intros H. rewrite <- (firstn_skipn k l) in H.
  apply Forall_app in H. tauto.
Qed.

Lemma skipn_nil_length {A : Type} (k : nat) (l : list A) :
  (k <= length l)%nat -> skipn k l = [] -> k = length l.
Proof.
  intros Hk H. apply (f_equal (@length A)) in H.
  rewrite length_skipn in H. simpl in H. lia.
Qed.

(** X1.  A call of [servePatients] with a capacity that is zero or
    negative enters neither loop: the scheduler is unchanged, stale
    patients included. *)
Theorem servePatients_without_capacity (max_to_serve minute : Z)
    (s : Scheduler) :
  max_to_serve <= 0 -> servePatients max_to_serve minute s = s.
Proof.
  intros Hcap.
  destruct (servePatients_exits max_to_serve minute s)
    as (ku & kn & Hs & _ & _ & _ & _ & Hku & Hkn & _).
  cbv zeta in *.
  assert (ku = O) as -> by (destruct ku; [reflexivity|]; lia).
  simpl in Hkn.
  assert (kn = O) as -> by (destruct kn; [reflexivity|]; lia).
  rewrite Hs. simpl. rewrite app_nil_r, !Z.add_0_r.
  destruct s; reflexivity.
Qed.

Lemma servePatients_without_capacity_witness :
  0 <= 0 /\ servePatients 0 20 busy_scheduler = busy_scheduler.
Proof.
  split; [lia|]. apply (servePatients_without_capacity 0 20). lia.
Defined.

Lemma firstn_min_length {A : Type} (n : nat) (l : list A) :
  firstn (Nat.min n (length l)) l = firstn n l.
Proof.
  destruct (Nat.le_ge_cases n (length l)) as [H|H].
  - rewrite Nat.min_l by exact H. reflexivity.
  - rewrite Nat.min_r by exact H. rewrite firstn_all, firstn_all2; auto.
Qed.

Lemma skipn_min_length {A : Type} (n : nat) (l : list A) :
  skipn (Nat.min n (length l)) l = skipn n l.
Proof.
  destruct (Nat.le_ge_cases n (length l)) as [H|H].
  - rewrite Nat.min_l by exact H. reflexivity.
  - rewrite Nat.min_r by exact H. rewrite skipn_all, skipn_all2; auto.
Qed.

(** X2.  When no queued patient has waited more than 10 minutes and the
    capacity [n] is not negative, a call serves exactly the first [n]
    patients of the urgent queue followed by the normal queue (all of
    them when there are fewer), in that order, and leaves the others
    queued. *)
Theorem servePatients_when_all_in_time (max_to_serve minute : Z)
    (s : Scheduler) :
  0 <= max_to_serve ->
  Forall (fun p => minute - getArrivalMinute p <= 10)
         (urgent_queue s ++ normal_queue s) ->
  let n := Z.to_nat max_to_serve in
  let s' := servePatients max_to_serve minute s in
  newly_served s s' = firstn n (urgent_queue s ++ normal_queue s) /\
  urgent_queue s' = skipn n (urgent_queue s) /\
  normal_queue s' = skipn (n - length (urgent_queue s)) (normal_queue s) /\
  total_served s' - total_served s
    = Z.min max_to_serve
            (Z.of_nat (length (urgent_queue s ++ normal_queue s))).
Proof.
  intros Hcap Hall. cbv zeta.
  apply Forall_app in Hall as [Hu Hn].
  destruct (servePatients_exits max_to_serve minute s)
    as (ku & kn & Hs & Hku & Hkn & Hex1 & Hex2 & _ & Hlt & Hle).
  cbv zeta in *.
  rewrite (filter_all minute (firstn ku _)) in *
    by (apply Forall_firstn; exact Hu).
  rewrite (filter_all minute (firstn kn _)) in *
    by (apply Forall_firstn; exact Hn).
  rewrite !length_firstn in *.
  rewrite (Nat.min_l ku) in * by exact Hku.
  rewrite (Nat.min_l kn) in * by exact Hkn.
  specialize (Hle Hcap).
  set (n := Z.to_nat max_to_serve).
  assert (Hn' : Z.of_nat n = max_to_serve) by (apply Z2Nat.id; exact Hcap).
  assert (Eku : ku = Nat.min n (length (urgent_queue s))).
  { destruct Hex1 as [H|H].
    - apply skipn_nil_length in H; [lia|exact Hku].
    - lia. }
  assert (Ekn : kn = Nat.min (n - length (urgent_queue s))
                             (length (normal_queue s))).
  { destruct Hex2 as [H|H].
    - apply skipn_nil_length in H; [|exact Hkn].
      destruct (Nat.eq_dec kn 0) as [E0|E0]; [lia|].
      specialize (Hlt E0). lia.
    - destruct (Nat.eq_dec kn 0) as [E0|E0]; [lia|].
      specialize (Hlt E0). lia. }
  rewrite (newly_served_app s _ _ (f_equal served_patients Hs)).
  rewrite Hs. simpl.
  rewrite firstn_app, Eku, Ekn, !firstn_min_length, !skipn_min_length.
  repeat split.
  rewrite length_app, !length_firstn, length_app. lia.
Qed.

Lemma servePatients_when_all_in_time_witness :
  let s := mkScheduler
             [example_patient "Urgent" 15; example_patient "Urgent" 16]
             [example_patient "Normal" 17; example_patient "Normal" 18]
             [] 4 2 2 0 0 in
  0 <= 3 /\
  Forall (fun p => 20 - getArrivalMinute p <= 10)
         (urgent_queue s ++ normal_queue s) /\
  newly_served s (servePatients 3 20 s)
    = firstn (Z.to_nat 3) (urgent_queue s ++ normal_queue s).
Proof.
  cbv zeta. split; [lia|]. split; [repeat constructor; simpl; lia|].
  apply (servePatients_when_all_in_time 3 20).
  - lia.
  - repeat constructor; simpl; lia.
Defined.

(** X3.  When every queued patient has waited more than 10 minutes, a
    call with a capacity of at least 1 empties both queues, whatever
    their lengths, serves nobody and changes no counter. *)
Theorem servePatients_when_all_stale (max_to_serve minute : Z)
    (s : Scheduler) :
  1 <= max_to_serve ->
  Forall (fun p => minute - getArrivalMinute p > 10)
         (urgent_queue s ++ normal_queue s) ->
  servePatients max_to_serve minute s =
    mkScheduler [] [] (served_patients s)
      (total_patients s) (total_urgent s) (total_normal s)
      (total_waiting_time s) (total_served s).
Proof.
  intros Hcap Hall.
  apply Forall_app in Hall as [Hu Hn].
  destruct (servePatients_exits max_to_serve minute s)
    as (ku & kn & Hs & Hku & Hkn & Hex1 & Hex2 & _).
  cbv zeta in *.
  rewrite (filter_none minute (firstn ku _)) in *
    by (apply Forall_firstn; exact Hu).
  rewrite (filter_none minute (firstn kn _)) in *
    by (apply Forall_firstn; exact Hn).
  simpl in *.
  destruct Hex1 as [H1|H1]; [|lia].
  destruct Hex2 as [H2|H2]; [|lia].
  rewrite Hs, H1, H2, app_nil_r, !Z.add_0_r. reflexivity.
Qed.

Lemma servePatients_when_all_stale_witness :
  let s := mkScheduler
             [example_patient "Urgent" 0; example_patient "Urgent" 1]
             [example_patient "Normal" 2] [] 3 2 1 0 0 in
  1 <= 1 /\
  Forall (fun p => 20 - getArrivalMinute p > 10)
         (urgent_queue s ++ normal_queue s) /\
  servePatients 1 20 s = mkScheduler [] [] [] 3 2 1 0 0.
Proof.
  cbv zeta. split; [lia|]. split; [repeat constructor; simpl; lia|].
  apply (servePatients_when_all_stale 1 20
           (mkScheduler
              [example_patient "Urgent" 0; example_patient "Urgent" 1]
              [example_patient "Normal" 2] [] 3 2 1 0 0)).
  - lia.
  - repeat constructor; simpl; lia.
Defined.

(** X4.  A call whose capacity is at least the number of queued patients
    leaves both queues empty. *)
Theorem servePatients_drains (max_to_serve minute : Z) (s : Scheduler) :
  Z.of_nat (length (urgent_queue s) + length (normal_queue s))
    <= max_to_serve ->
  urgent_queue (servePatients max_to_serve minute s) = [] /\
  normal_queue (servePatients max_to_serve minute s) = [].
Proof.
  intros Hcap.
  destruct (servePatients_exits max_to_serve minute s)
    as (ku & kn & Hs & Hku & Hkn & Hex1 & Hex2 & _).
  cbv zeta in *.
  pose proof (filter_length_le (in_time minute)
                (firstn ku (urgent_queue s))) as Lu.
  pose proof (filter_length_le (in_time minute)
                (firstn kn (normal_queue s))) as Ln.
  rewrite length_firstn in Lu, Ln.
  rewrite Hs. simpl. split.
  - destruct Hex1 as [H|H]; [exact H|].
    assert (ku = length (urgent_queue s)) as -> by lia.
    apply skipn_all.
  - destruct Hex2 as [H|H]; [exact H|].
    assert (kn = length (normal_queue s)) as -> by lia.
    apply skipn_all.
Qed.

Lemma servePatients_drains_witness :
  Z.of_nat (length (urgent_queue busy_scheduler)
            + length (normal_queue busy_scheduler)) <= 4 /\
  urgent_queue (servePatients 4 20 busy_scheduler) = [] /\
  normal_queue (servePatients 4 20 busy_scheduler) = [].
Proof.
  split; [simpl; lia|].
  apply (servePatients_drains 4 20 busy_scheduler). simpl. lia.
Defined.

(** X5.  A call with a capacity of at least 1 on a scheduler that has a
    queued patient takes at least one patient out of the queues. *)
Theorem servePatients_progress (max_to_serve minute : Z) (s : Scheduler) :
  1 <= max_to_serve ->
  urgent_queue s ++ normal_queue s <> [] ->
  let s' := servePatients max_to_serve minute s in
  (length (urgent_queue s') + length (normal_queue s')
   < length (urgent_queue s) + length (normal_queue s))%nat.
Proof.
  intros Hcap Hne. cbv zeta.
  destruct (servePatients_exits max_to_serve minute s)
    as (ku & kn & Hs & Hku & Hkn & Hex1 & Hex2 & _).
  cbv zeta in *.
  rewrite Hs. simpl. rewrite !length_skipn.
  destruct ku as [|ku]; [|lia].
  destruct kn as [|kn]; [|lia].
  simpl in *.
  destruct Hex1 as [H1|H1]; [|lia].
  destruct Hex2 as [H2|H2]; [|lia].
  rewrite H1, H2 in Hne. contradiction.
Qed.

Lemma servePatients_progress_witness :
  1 <= 1 /\
  urgent_queue busy_scheduler ++ normal_queue busy_scheduler <> [] /\
  (length (urgent_queue (servePatients 1 20 busy_scheduler))
   + length (normal_queue (servePatients 1 20 busy_scheduler))
   < length (urgent_queue busy_scheduler)
     + length (normal_queue busy_scheduler))%nat.
Proof.
  split; [lia|]. split; [discriminate|].
  apply (servePatients_progress 1 20 busy_scheduler).
  - lia.
  - discriminate.
Defined.

(** X6.  After any sequence of calls on a new scheduler, no queue holds
    more patients than were enrolled in its category, and the patients
    queued and served together are at most [total_patients]: a patient is
    enrolled once and then queued, served or discarded, never duplicated.
    [total_patients] stays the sum of the two category counters. *)
Theorem patients_are_accounted_for (cs : list Call) :
  let s := run new_Scheduler cs in
  Z.of_nat (length (urgent_queue s)) <= total_urgent s /\
  Z.of_nat (length (normal_queue s)) <= total_normal s /\
  total_patients s = total_urgent s + total_normal s /\
  Z.of_nat (length (urgent_queue s) + length (normal_queue s)
            + length (served_patients s)) <= total_patients s.
Proof.
  cbv zeta. apply run_invariant; clear cs.
  - simpl. lia.
  - intros s c (H1 & H2 & H3 & H4).
    destruct c as [p | max_to_serve minute]; simpl.
    + unfold addPatient. destruct (String.eqb _ _); simpl;
        rewrite ?length_app; simpl; lia.
    + destruct (servePatients_exits max_to_serve minute s)
        as (ku & kn & Hs & Hku & Hkn & _).
      cbv zeta in Hs. rewrite Hs. simpl.
      pose proof (filter_length_le (in_time minute)
                    (firstn ku (urgent_queue s))) as Lu.
      pose proof (filter_length_le (in_time minute)
                    (firstn kn (normal_queue s))) as Ln.
      rewrite length_firstn in Lu, Ln.
      rewrite !length_app, !length_skipn. lia.
Qed.

(** X7.  After any sequence of calls on a new scheduler, every patient in
    the urgent queue has the type [Urgent] and no patient in the normal
    queue has it. *)
Theorem queues_partition_by_type (cs : list Call) :
  let s := run new_Scheduler cs in
  Forall (fun p => getType p = "Urgent"%string) (urgent_queue s) /\
  Forall (fun p => getType p <> "Urgent"%string) (normal_queue s).
Proof.
  cbv zeta. apply run_invariant; clear cs.
  - simpl. auto.
  - intros s c (Hu & Hn).
    destruct c as [p | max_to_serve minute]; simpl.
    + unfold addPatient.
      destruct (String.eqb (getType p) "Urgent") eqn:E; simpl.
      * apply String.eqb_eq in E. split; [|exact Hn].
        apply Forall_app. auto.
      * apply String.eqb_neq in E. split; [exact Hu|].
        apply Forall_app. auto.
    + destruct (servePatients_exits max_to_serve minute s)
        as (ku & kn & Hs & _).
      cbv zeta in Hs. rewrite Hs. simpl.
      split; apply Forall_skipn; assumption.
Qed.

(** * The console driver *)

Lemma string_app_nil_r (s : string) : (s ++ "")%string = s.
Proof. induction s as [|c s IH]; simpl; [reflexivity|]. now rewrite IH. Qed.

Lemma string_app_assoc (a b c : string) :
  ((a ++ b) ++ c)%string = (a ++ (b ++ c))%string.
Proof. induction a as [|x a IH]; simpl; [reflexivity|]. now rewrite IH. Qed.

Lemma string_all_app (f : ascii -> bool) (a b : string) :
  string_all f (a ++ b) = string_all f a && string_all f b.
Proof.
  induction a as [|x a IH]; simpl; [reflexivity|].
  rewrite IH, andb_assoc. reflexivity.
Qed.

(** X8.  The trimming that [main] applies to a line removes exactly its
    trailing run of space, newline, carriage return and tab characters:
    the line is the trimmed line followed by such characters only, and
    the trimmed line does not end in one. *)
Theorem rtrim_removes_trailing_blanks (s : string) :
  exists t,
    s = (rtrim s ++ t)%string /\
    string_all is_trimmed_char t = true /\
    forall r c, rtrim s = (r ++ String c EmptyString)%string ->
                is_trimmed_char c = false.
Proof.
  induction s as [|a s (t & Hs & Ht & Hlast)].
  - exists EmptyString. repeat split. intros [|x r] c H; discriminate.
  - simpl. destruct (rtrim s) as [|b r'] eqn:E.
    + simpl in Hs. subst t.
      destruct (is_trimmed_char a) eqn:Ea.
      * exists (String a s). repeat split.
        -- simpl. rewrite Ea, Ht. reflexivity.
        -- intros [|x r] c H; discriminate.
      * exists s. repeat split; auto.
        intros [|x r] c H; simpl in H.
        -- injection H as <-. exact Ea.
        -- injection H as _ H. destruct r; discriminate.
    + exists t. split; [|split].
      * simpl. f_equal. exact Hs.
      * exact Ht.
      * intros [|x r] c H; simpl in H; [discriminate|].
        injection H as _ H. apply (Hlast r c). exact H.
Qed.

(** ** Reading a record *)

Lemma skip_ws_blank (ws s : string) :
  string_all is_space ws = true -> skip_ws (ws ++ s) = skip_ws s.
Proof.
  induction ws as [|c ws IH]; simpl; [reflexivity|].
  intros H. apply andb_true_iff in H as [Hc Hws].
  rewrite Hc. apply IH, Hws.
Qed.

Lemma read_word_app (w rest : string) :
  string_all (fun c => negb (is_space c)) w = true ->
  starts_blank rest = true ->
  read_word (w ++ rest) = (w, rest).
Proof.
  induction w as [|c w IH]; simpl; intros Hw Hrest.
  - destruct rest as [|c r]; simpl in *; [reflexivity|].
    rewrite Hrest. reflexivity.
  - apply andb_true_iff in Hw as [Hc Hw].
    apply negb_true_iff in Hc. rewrite Hc, (IH Hw Hrest). reflexivity.
Qed.

Lemma extract_string_word (ws w rest old : string) :
  string_all is_space ws = true ->
  is_word w = true ->
  starts_blank rest = true ->
  extract_string (mkIstream (ws ++ w ++ rest) false) old
  = (mkIstream rest false, w).
Proof.
  intros Hws Hw Hrest. unfold extract_string. simpl.
  rewrite (skip_ws_blank _ _ Hws).
  unfold is_word in Hw. apply andb_true_iff in Hw as [Hne Hw].
  destruct w as [|c w]; [discriminate|].
  pose proof (read_word_app (String c w) rest Hw Hrest) as Hread.
  simpl in Hw. apply andb_true_iff in Hw as [Hc _].
  apply negb_true_iff in Hc.
  simpl skip_ws. rewrite Hc. cbv beta iota zeta.
  simpl in Hread. rewrite Hc in Hread |- *.
  destruct (read_word (w ++ rest)) as [w0 rest0].
  injection Hread as -> ->. reflexivity.
Qed.

Lemma extract_char_nonspace (ws : string) (g : ascii) (rest : string)
    (old : ascii) :
  string_all is_space ws = true ->
  is_space g = false ->
  extract_char (mkIstream (ws ++ String g rest) false) old
  = (mkIstream rest false, g).
Proof.
  intros Hws Hg. unfold extract_char. simpl.
  rewrite (skip_ws_blank _ _ Hws). simpl. rewrite Hg. reflexivity.
Qed.

Lemma separator_starts_blank (sep s : string) :
  is_separator sep = true -> starts_blank (sep ++ s) = true.
Proof.
  unfold is_separator. intros H. apply andb_true_iff in H as [Hne H].
  destruct sep as [|c sep]; [discriminate|].
  simpl in *. apply andb_true_iff in H. tauto.
Qed.

Lemma separator_blank (sep : string) :
  is_separator sep = true -> string_all is_space sep = true.
Proof.
  unfold is_separator. intros H. apply andb_true_iff in H. tauto.
Qed.

(** X9.  A line made of an id, a gender character, an arrival time and a
    type, in this order, is read back field by field: white space may
    lead the line, must separate the id from the gender and the time from
    the type, may separate the gender from the time, and whatever follows
    the type after white space is ignored.  The patient gets the type in
    upper case and the current minute as arrival minute; the line is
    refused when the type in upper case is neither [URGENT] nor
    [NORMAL]. *)
Theorem manual_entry_reads_record (gender0 : ascii) (minute : Z)
    (s : Scheduler) (lead id sep1 : string) (g : ascii)
    (sep2 time sep3 type tail : string) :
  string_all is_space lead = true ->
  is_word id = true ->
  is_separator sep1 = true ->
  is_space g = false ->
  string_all is_space sep2 = true ->
  is_word time = true ->
  is_separator sep3 = true ->
  is_word type = true ->
  starts_blank tail = true ->
  manual_entry gender0 minute
    (lead ++ id ++ sep1 ++ String g (sep2 ++ time ++ sep3 ++ type ++ tail))
    s
  = if String.eqb (string_map toupper type) "URGENT"
       || String.eqb (string_map toupper type) "NORMAL"
    then addPatient s (mkPatient id g time (string_map toupper type) minute)
    else s.
Proof.
  intros Hlead Hid Hsep1 Hg Hsep2 Htime Hsep3 Htype Htail.
  unfold manual_entry.
  rewrite (extract_string_word lead id _ EmptyString Hlead Hid
             (separator_starts_blank sep1 _ Hsep1)).
  rewrite (extract_char_nonspace sep1 g _ gender0
             (separator_blank sep1 Hsep1) Hg).
  rewrite (extract_string_word sep2 time _ EmptyString Hsep2 Htime
             (separator_starts_blank sep3 _ Hsep3)).
  rewrite (extract_string_word sep3 type tail EmptyString
             (separator_blank sep3 Hsep3) Htype Htail).
  destruct (String.eqb (string_map toupper type) "URGENT");
    destruct (String.eqb (string_map toupper type) "NORMAL"); reflexivity.
Qed.

Lemma manual_entry_reads_record_witness :
  string_all is_space " " = true /\
  is_word "N7" = true /\
  is_separator "  " = true /\
  is_space "F" = false /\
  string_all is_space "" = true /\
  is_word "9:05" = true /\
  is_separator " " = true /\
  is_word "Normal" = true /\
  starts_blank " late" = true /\
  manual_entry "?" 4 " N7  F9:05 Normal late" new_Scheduler
  = addPatient new_Scheduler (mkPatient "N7" "F" "9:05" "NORMAL" 4).
Proof.
  repeat (split; [reflexivity|]).
  apply (manual_entry_reads_record "?" 4 new_Scheduler
           " " "N7" "  " "F" "" "9:05" " " "Normal" " late");
    reflexivity.
Defined.

(** X10.  The local [gender] of [main] is not initialised, yet its
    initial value never reaches a patient: whatever that value is, a
    line has the same effect on the scheduler. *)
Theorem manual_entry_ignores_initial_gender (g1 g2 : ascii) (minute : Z)
    (input : string) (s : Scheduler) :
  manual_entry g1 minute input s = manual_entry g2 minute input s.
Proof.
  unfold manual_entry.
  destruct (extract_string (mkIstream input false) EmptyString)
    as [ss1 id].
  unfold extract_char.
  destruct (failbit ss1) eqn:F1.
  - (* the stream has failed: nothing more is read and the type is empty *)
    unfold extract_string. repeat (rewrite F1; cbn). reflexivity.
  - destruct (skip_ws (pending ss1)) as [|c rest].
    + unfold extract_string. simpl. reflexivity.
    + reflexivity.
Qed.

(** X11.  A manual entry either leaves the scheduler as it was, or
    appends one patient to the normal queue and adds one to
    [total_patients] and to [total_normal]; the patient has the current
    minute as arrival minute and the type [URGENT] or [NORMAL].  The
    urgent queue, the served patients and the serving counters are never
    touched. *)
Theorem manual_entry_effect (gender0 : ascii) (minute : Z)
    (input : string) (s : Scheduler) :
  manual_entry gender0 minute input s = s \/
  exists p,
    manual_entry gender0 minute input s =
      mkScheduler (urgent_queue s) (normal_queue s ++ [p])
        (served_patients s)
        (total_patients s + 1) (total_urgent s) (total_normal s + 1)
        (total_waiting_time s) (total_served s) /\
    getArrivalMinute p = minute /\
    (getType p = "URGENT"%string \/ getType p = "NORMAL"%string).
Proof.
  unfold manual_entry.
  destruct (extract_string _ _) as [ss1 id].
  destruct (extract_char _ _) as [ss2 gender].
  destruct (extract_string ss2 _) as [ss3 arrival_time].
  destruct (extract_string ss3 _) as [ss4 type0].
  destruct (String.eqb (string_map toupper type0) "URGENT") eqn:EU.
  - right. apply String.eqb_eq in EU. simpl.
    eexists. unfold addPatient. simpl. rewrite EU. simpl.
    repeat split. left. reflexivity.
  - destruct (String.eqb (string_map toupper type0) "NORMAL") eqn:EN.
    + right. apply String.eqb_eq in EN. simpl.
      eexists. unfold addPatient. simpl. rewrite EN. simpl.
      repeat split. right. reflexivity.
    + left. reflexivity.
Qed.

(** ** The loop of [main] *)

Lemma manual_entry_serving_untouched (gender0 : ascii) (minute : Z)
    (input : string) (s : Scheduler) :
  served_patients (manual_entry gender0 minute input s)
    = served_patients s /\
  total_served (manual_entry gender0 minute input s) = total_served s /\
  total_waiting_time (manual_entry gender0 minute input s)
    = total_waiting_time s.
Proof.
  unfold manual_entry.
  destruct (extract_string _ _) as [ss1 id].
  destruct (extract_char _ _) as [ss2 gender].
  destruct (extract_string ss2 _) as [ss3 arrival_time].
  destruct (extract_string ss3 _) as [ss4 type0].
  destruct (negb _ && negb _); [auto|].
  unfold addPatient. destruct (String.eqb _ _); simpl; auto.
Qed.

(** X12.  A line that is not [next] once its trailing blanks are removed
    never serves anybody, never advances the clock and never ends the
    loop, whatever the capacity drawn; the urgent queue is as it was. *)
Theorem only_next_advances_time (gender0 : ascii) (max_to_serve : Z)
    (line : string) (st : MainState) :
  rtrim line <> "next"%string ->
  let r := main_iteration gender0 max_to_serve line st in
  snd r = false /\
  clock (fst r) = clock st /\
  served_patients (scheduler (fst r)) = served_patients (scheduler st) /\
  total_served (scheduler (fst r)) = total_served (scheduler st) /\
  total_waiting_time (scheduler (fst r))
    = total_waiting_time (scheduler st) /\
  urgent_queue (scheduler (fst r)) = urgent_queue (scheduler st).
Proof.
  intros Hline. cbv zeta. unfold main_iteration.
  destruct (rtrim line) as [|c r] eqn:E.
  - simpl. repeat split.
  - destruct (String.eqb (String c r) "next") eqn:Enext.
    + apply String.eqb_eq in Enext. contradiction.
    + cbn [fst snd scheduler clock].
      destruct (manual_entry_serving_untouched gender0 (clock st)
                  (String c r) (scheduler st)) as (H1 & H2 & H3).
      destruct (manual_entry_not_urgent gender0 (clock st)
                  (String c r) (scheduler st)) as (H4 & _).
      repeat split; assumption.
Qed.

Lemma only_next_advances_time_witness :
  rtrim " next" <> "next"%string /\
  let r := main_iteration "?" 5 " next" (mkMainState busy_scheduler 20) in
  snd r = false /\ clock (fst r) = 20.
Proof.
  split; [discriminate|].
  cbv zeta.
  destruct (only_next_advances_time "?" 5 " next"
              (mkMainState busy_scheduler 20)) as (H1 & H2 & _).
  - discriminate.
  - split; [exact H1 | exact H2].
Defined.

(** X13.  Lines that are blank once trimmed, as many as there may be,
    leave the state of [main] as it was and do not end its loop.  (At the
    end of the input [getline] leaves [input] empty, so every further
    iteration is of this kind.) *)
Theorem blank_lines_change_nothing (gender0 : ascii)
    (capacity : nat -> Z) (lines : list string) :
  Forall (fun line => rtrim line = EmptyString) lines ->
  forall i st, main_loop gender0 capacity i lines st = (st, false).
Proof.
  induction 1 as [|line lines Hline _ IH]; intros i st; simpl.
  - reflexivity.
  - unfold main_iteration. rewrite Hline. apply IH.
Qed.

Lemma blank_lines_change_nothing_witness :
  Forall (fun line => rtrim line = EmptyString) [""; "  "; ""]%string /\
  main_loop "?" (fun _ => 5) 0 [""; "  "; ""]%string
            (mkMainState busy_scheduler 3)
  = (mkMainState busy_scheduler 3, false).
Proof.
  split; [repeat constructor|].
  apply (blank_lines_change_nothing "?" (fun _ => 5)
           [""; "  "; ""]%string).
  repeat constructor.
Defined.

Lemma queue_empty_spec (s : Scheduler) :
  isUrgentQueueEmpty s && isNormalQueueEmpty s = true <->
  urgent_queue s = [] /\ normal_queue s = [].
Proof.
  unfold isUrgentQueueEmpty, isNormalQueueEmpty.
  destruct (urgent_queue s), (normal_queue s); simpl; split;
    intros H; try discriminate; auto; destruct H; discriminate.
Qed.

(** X14.  When every capacity drawn is at least 1, entering [next] as
    many times as there are queued patients (once, when there are none)
    ends the loop of [main], with both queues empty. *)
Theorem repeated_next_ends_simulation (gender0 : ascii)
    (capacity : nat -> Z) (n : nat) :
  (forall j, 1 <= capacity j) ->
  forall i st,
    (1 <= n)%nat ->
    (length (urgent_queue (scheduler st))
     + length (normal_queue (scheduler st)) <= n)%nat ->
    let r := main_loop gender0 capacity i (repeat "next"%string n) st in
    snd r = true /\
    urgent_queue (scheduler (fst r)) = [] /\
    normal_queue (scheduler (fst r)) = [].
Proof.
  intros Hcap. induction n as [|n IH]; intros i st Hn Hlen; [lia|].
  cbv zeta. cbn [repeat main_loop].
  change (main_iteration gender0 (capacity i) "next" st)
    with (let s' := servePatients (capacity i) (clock st) (scheduler st) in
          (mkMainState s' (clock st + 1),
           isUrgentQueueEmpty s' && isNormalQueueEmpty s')).
  cbv zeta.
  destruct (isUrgentQueueEmpty _ && isNormalQueueEmpty _) eqn:E.
  - apply queue_empty_spec in E. simpl. tauto.
  - destruct (servePatients_exits (capacity i) (clock st) (scheduler st))
      as (ku & kn & Hs & Hku & Hkn & Hex1 & Hex2 & _).
    cbv zeta in Hs, Hex1, Hex2.
    pose proof (f_equal (fun x => length (urgent_queue x)) Hs) as Lu.
    pose proof (f_equal (fun x => length (normal_queue x)) Hs) as Ln.
    simpl in Lu, Ln. rewrite length_skipn in Lu, Ln.
    assert (Hpos :
      (1 <= length (urgent_queue
                      (servePatients (capacity i) (clock st)
                                     (scheduler st)))
            + length (normal_queue
                        (servePatients (capacity i) (clock st)
                                       (scheduler st))))%nat).
    { destruct (urgent_queue (servePatients _ _ _)) eqn:E1;
        destruct (normal_queue (servePatients _ _ _)) eqn:E2;
        simpl; try lia.
      assert (isUrgentQueueEmpty
                (servePatients (capacity i) (clock st) (scheduler st))
              && isNormalQueueEmpty
                   (servePatients (capacity i) (clock st) (scheduler st))
              = true) by (apply queue_empty_spec; auto).
      congruence. }
    assert (Hk : (1 <= ku + kn)%nat).
    { specialize (Hcap i).
      destruct ku as [|ku], kn as [|kn]; try lia.
      simpl in Hex1, Hex2.
      destruct Hex1 as [H1|H1]; [|lia].
      destruct Hex2 as [H2|H2]; [|lia].
      rewrite H1, H2 in *. simpl in *. lia. }
    apply (IH (S i) (mkMainState _ _)); simpl; lia.
Qed.

Lemma repeated_next_ends_simulation_witness :
  (forall j : nat, 1 <= (fun _ => 5) j) /\
  (1 <= 4)%nat /\
  (length (urgent_queue busy_scheduler)
   + length (normal_queue busy_scheduler) <= 4)%nat /\
  let r := main_loop "?" (fun _ => 5) 0 (repeat "next"%string 4)
                     (mkMainState busy_scheduler 20) in
  snd r = true /\
  urgent_queue (scheduler (fst r)) = [] /\
  normal_queue (scheduler (fst r)) = [].
Proof.
  split; [intros j; lia|]. split; [lia|]. split; [simpl; lia|].
  apply (repeated_next_ends_simulation "?" (fun _ => 5) 4).
  - intros j. lia.
  - lia.
  - simpl. lia.
Defined.

(** * The patient generator *)

(** ** Loops that count up to a bound *)

Section CountingLoop.
Context {A : Type}.
Variable idx : A -> Z.
Variable bound : Z.
Variable cond : A -> bool.
Variable body : A -> A.

Hypothesis cond_spec : forall st, cond st = (idx st <? bound).
Hypothesis body_idx : forall st, idx (body st) = idx st + 1.

(** Such a loop makes [bound - idx st] iterations, none when this is
    negative. *)
Lemma counting_loop_run :
  forall fuel st,
    (Z.to_nat (bound - idx st) <= fuel)%nat ->
    while fuel cond body st
    = Some (Nat.iter (Z.to_nat (bound - idx st)) body st,
            Z.to_nat (bound - idx st)).
Proof.
  induction fuel as [|f IH]; intros st Hfuel;
    rewrite while_unfold, cond_spec;
    destruct (idx st <? bound) eqn:E.
  - apply Z.ltb_lt in E. lia.
  - apply Z.ltb_ge in E.
    replace (Z.to_nat (bound - idx st)) with O by lia. reflexivity.
  - apply Z.ltb_lt in E.
    assert (Hk : Z.to_nat (bound - idx st)
                 = S (Z.to_nat (bound - idx (body st)))).
    { rewrite body_idx. lia. }
    rewrite IH by lia. rewrite Hk, Nat.iter_succ_r. reflexivity.
  - apply Z.ltb_ge in E.
    replace (Z.to_nat (bound - idx st)) with O by lia. reflexivity.
Qed.
End CountingLoop.

(** ** One patient *)

Lemma to_string_digit (d : Z) :
  0 <= d < 10 ->
  exists c, to_string d = String c EmptyString /\ is_digit c = true.
Proof.
  intros H.
  assert (d = 0 \/ d = 1 \/ d = 2 \/ d = 3 \/ d = 4 \/ d = 5 \/ d = 6 \/
          d = 7 \/ d = 8 \/ d = 9) as Hd by lia.
  repeat (destruct Hd as [->|Hd]; [eexists; split; reflexivity|]).
  subst d. eexists; split; reflexivity.
Qed.

Section Generator.
Variable rand_values : nat -> Z.
Hypothesis rand_nonneg : forall k, 0 <= rand_values k.

(** What [n] iterations of the digit loop do. *)
Lemma id_body_iter (n : nat) (st : IdLoop) :
  let st' := Nat.iter n (id_body rand_values) st in
  id_calls st' = (id_calls st + n)%nat /\
  exists digits,
    id_text st' = (id_text st ++ digits)%string /\
    String.length digits = n /\
    string_all is_digit digits = true.
Proof.
  induction n as [|n (Hc & digits & Ht & Hl & Hd)]; cbv zeta.
  - simpl. split; [lia|]. exists EmptyString.
    rewrite string_app_nil_r. auto.
  - rewrite Nat.iter_succ.
    split; [unfold id_body at 1; cbn [id_calls]; lia|].
    destruct (to_string_digit
                (Z.rem (rand_values
                          (id_calls (Nat.iter n (id_body rand_values) st)))
                       10)) as (c & Ec & Hc').
    { apply Z.rem_bound_pos; [apply rand_nonneg | lia]. }
    exists (digits ++ String c EmptyString)%string.
    unfold id_body at 1. cbn [id_text].
    rewrite Ec, Ht, string_app_assoc, string_all_app. simpl.
    rewrite Hd, Hc'. repeat split.
    clear - Hl. revert n Hl.
    induction digits as [|x digits IH]; intros n Hl; simpl in *.
    + lia.
    + destruct n as [|n]; [discriminate|].
      injection Hl as Hl. rewrite (IH n Hl). reflexivity.
Qed.

Lemma append_digits_spec (id : string) (calls : nat) :
  exists digits,
    append_digits rand_values id calls
    = ((id ++ digits)%string, (calls + 13)%nat) /\
    String.length digits = 13%nat /\
    string_all is_digit digits = true.
Proof.
  unfold append_digits.
  rewrite (counting_loop_run id_i 13 id_cond (id_body rand_values)
             (fun st => eq_refl) (fun st => eq_refl) 13
             (mkIdLoop 0 id calls))
    by (simpl; lia).
  change (Z.to_nat (13 - id_i (mkIdLoop 0 id calls))) with 13%nat.
  destruct (id_body_iter 13 (mkIdLoop 0 id calls))
    as (Hc & digits & Ht & Hl & Hd).
  cbv zeta in Hc, Ht. exists digits.
  rewrite Hc, Ht. simpl. auto.
Qed.

(** One generated patient, written out. *)
Lemma generateRandomPatient_spec (hour_first : bool) (minute : Z)
    (calls : nat) :
  exists d0 digits g h m type,
    generateRandomPatient rand_values hour_first minute calls
    = (mkPatient (String d0 digits) g
                 (to_string h ++ ":" ++ to_string m)%string type minute,
       (calls + 18)%nat) /\
    (d0 = "2"%char \/ d0 = "3"%char) /\
    String.length digits = 13%nat /\
    string_all is_digit digits = true /\
    (g = "M"%char \/ g = "F"%char) /\
    0 <= h < 24 /\ 0 <= m < 60 /\
    (type = "Urgent"%string \/ type = "Normal"%string).
Proof.
  pose proof (Z.rem_bound_pos (rand_values calls) 2
                (rand_nonneg calls) ltac:(lia)) as H0.
  destruct (append_digits_spec
              (to_string (Z.rem (rand_values calls) 2 + 2)) (S calls))
    as (digits & E & Hl & Hd).
  unfold generateRandomPatient, rand_bind, rand, rand_ret.
  rewrite E.
  set (c1 := (S calls + 13)%nat).
  exists (if Z.rem (rand_values calls) 2 =? 0
          then "2"%char else "3"%char),
         digits,
         (if Z.rem (rand_values c1) 2 =? 0 then "M"%char else "F"%char),
         (Z.rem (if hour_first then rand_values (S c1)
                 else rand_values (S (S c1))) 24),
         (Z.rem (if hour_first then rand_values (S (S c1))
                 else rand_values (S c1)) 60),
         (if Z.rem (rand_values (S (S (S c1)))) 2 =? 0
          then "Urgent"%string else "Normal"%string).
  split; [|split; [|split; [|split; [|split; [|split; [|split]]]]]].
  - f_equal; [|unfold c1; lia].
    f_equal.
    assert (Z.rem (rand_values calls) 2 = 0
            \/ Z.rem (rand_values calls) 2 = 1) as [->| ->] by lia;
      reflexivity.
  - destruct (_ =? _); auto.
  - exact Hl.
  - exact Hd.
  - destruct (_ =? _); auto.
  - apply Z.rem_bound_pos; [destruct hour_first; apply rand_nonneg | lia].
  - apply Z.rem_bound_pos; [destruct hour_first; apply rand_nonneg | lia].
  - destruct (_ =? _); auto.
Qed.

(** X15.  Whatever non-negative values [rand()] returns, the id of a
    generated patient is made of 14 decimal digits, the first of which is
    2 or 3. *)
Theorem generated_id_format (hour_first : bool) (minute : Z)
    (calls : nat) :
  let p := fst (generateRandomPatient rand_values hour_first minute calls) in
  String.length (getId p) = 14%nat /\
  string_all is_digit (getId p) = true /\
  exists rest, getId p = String "2" rest \/ getId p = String "3" rest.
Proof.
  cbv zeta.
  destruct (generateRandomPatient_spec hour_first minute calls)
    as (d0 & digits & g & h & m & type & E & Hd0 & Hl & Hd & _).
  rewrite E. simpl. rewrite Hl, Hd.
  repeat split.
  - destruct Hd0 as [->| ->]; reflexivity.
  - exists digits. destruct Hd0 as [->| ->]; auto.
Qed.

(** X16.  A generated patient has the gender [M] or [F], the type
    [Urgent] or [Normal] and the arrival minute asked for; its arrival
    time is an hour below 24 and a minute below 60, printed without
    padding and joined by a colon.  Generating it takes 18 calls of
    [rand()]. *)
Theorem generated_patient_fields (hour_first : bool) (minute : Z)
    (calls : nat) :
  let r := generateRandomPatient rand_values hour_first minute calls in
  snd r = (calls + 18)%nat /\
  (getGender (fst r) = "M"%char \/ getGender (fst r) = "F"%char) /\
  (getType (fst r) = "Urgent"%string \/
   getType (fst r) = "Normal"%string) /\
  getArrivalMinute (fst r) = minute /\
  exists h m,
    0 <= h < 24 /\ 0 <= m < 60 /\
    getArrivalTime (fst r) = (to_string h ++ ":" ++ to_string m)%string.
Proof.
  cbv zeta.
  destruct (generateRandomPatient_spec hour_first minute calls)
    as (d0 & digits & g & h & m & type & E & _ & _ & _ & Hg & Hh & Hm & Ht).
  rewrite E. simpl. repeat split; auto.
  exists h, m. auto.
Qed.
End Generator.

Lemma example_rand_nonneg (k : nat) : 0 <= example_rand k.
Proof. unfold example_rand. lia. Qed.

Lemma generated_id_format_witness :
  (forall k, 0 <= example_rand k) /\
  let p := fst (generateRandomPatient example_rand true 4 7%nat) in
  String.length (getId p) = 14%nat /\
  string_all is_digit (getId p) = true /\
  exists rest, getId p = String "2" rest \/ getId p = String "3" rest.
Proof.
  split; [exact example_rand_nonneg|].
  apply (generated_id_format example_rand example_rand_nonneg true 4 7%nat).
Defined.

Lemma generated_patient_fields_witness :
  (forall k, 0 <= example_rand k) /\
  let r := generateRandomPatient example_rand false 4 7%nat in
  snd r = (7 + 18)%nat /\
  (getGender (fst r) = "M"%char \/ getGender (fst r) = "F"%char) /\
  (getType (fst r) = "Urgent"%string \/
   getType (fst r) = "Normal"%string) /\
  getArrivalMinute (fst r) = 4 /\
  exists h m,
    0 <= h < 24 /\ 0 <= m < 60 /\
    getArrivalTime (fst r) = (to_string h ++ ":" ++ to_string m)%string.
Proof.
  split; [exact example_rand_nonneg|].
  apply (generated_patient_fields example_rand example_rand_nonneg
           false 4 7%nat).
Defined.

(** ** A list of patients *)

Lemma gen_body_idx (rand_values : nat -> Z) (hour_first : bool)
    (start_minute : Z) (st : GenLoop) :
  gen_i (gen_body rand_values hour_first start_minute st) = gen_i st + 1.
Proof.
  unfold gen_body. destruct (generateRandomPatient _ _ _ _). reflexivity.
Qed.

(** What [n] iterations of the loop of [generatePatients] do. *)
Lemma gen_body_iter (rand_values : nat -> Z) (hour_first : bool)
    (start_minute : Z) (n : nat) (st : GenLoop) :
  (forall k, 0 <= rand_values k) ->
  let st' := Nat.iter n (gen_body rand_values hour_first start_minute) st in
  gen_calls st' = (gen_calls st + 18 * n)%nat /\
  exists ps,
    gen_patients st' = gen_patients st ++ ps /\
    length ps = n /\
    Forall (fun p => getArrivalMinute p = start_minute /\
                     (getType p = "Urgent"%string \/
                      getType p = "Normal"%string) /\
                     String.length (getId p) = 14%nat) ps.
Proof.
  intros Hrand.
  induction n as [|n (Hc & ps & Hp & Hl & Hall)]; cbv zeta.
  - simpl. split; [lia|]. exists []. rewrite app_nil_r. auto.
  - rewrite Nat.iter_succ.
    set (st1 := Nat.iter n (gen_body rand_values hour_first start_minute) st)
      in *.
    unfold gen_body.
    destruct (generateRandomPatient_spec rand_values Hrand hour_first
                start_minute (gen_calls st1))
      as (d0 & digits & g & h & m & type & E & _ & Hlen & _ & _ & _ & _ & Ht).
    rewrite E. simpl. split; [lia|].
    eexists (ps ++ [_]). rewrite Hp, <- app_assoc.
    split; [reflexivity|]. split; [rewrite length_app; simpl; lia|].
    apply Forall_app. split; [exact Hall|].
    constructor; [|constructor]. simpl. rewrite Hlen. auto.
Qed.

(** The list [generatePatients] returns, and the calls it makes. *)
Lemma generatePatients_spec (rand_values : nat -> Z)
    (hour_first : bool) (count start_minute : Z) (calls : nat) :
  (forall k, 0 <= rand_values k) ->
  exists ps,
    generatePatients rand_values hour_first count start_minute calls
    = (ps, (calls + 18 * Z.to_nat count)%nat) /\
    length ps = Z.to_nat count /\
    Forall (fun p => getArrivalMinute p = start_minute /\
                     (getType p = "Urgent"%string \/
                      getType p = "Normal"%string) /\
                     String.length (getId p) = 14%nat) ps.
Proof.
  intros Hrand. unfold generatePatients.
  rewrite (counting_loop_run gen_i count (gen_cond count)
             (gen_body rand_values hour_first start_minute)
             (fun st => eq_refl)
             (gen_body_idx rand_values hour_first start_minute)
             (Z.to_nat count) (mkGenLoop 0 [] calls))
    by (simpl; lia).
  cbn [gen_i]. rewrite Z.sub_0_r.
  destruct (gen_body_iter rand_values hour_first start_minute
              (Z.to_nat count) (mkGenLoop 0 [] calls) Hrand)
    as (Hc & ps & Hp & Hl & Hall).
  cbv zeta in Hc, Hp. simpl in Hc, Hp.
  exists ps. rewrite Hc, Hp. auto.
Qed.

(** X17.  [generatePatients count start_minute] returns [count] patients
    (none when [count] is negative), each with [start_minute] as arrival
    minute, the type [Urgent] or [Normal] and an id of 14 characters, and
    makes 18 calls of [rand()] for each. *)
Theorem generatePatients_count (rand_values : nat -> Z)
    (hour_first : bool) (count start_minute : Z) (calls : nat) :
  (forall k, 0 <= rand_values k) ->
  let r := generatePatients rand_values hour_first count start_minute calls
  in
  length (fst r) = Z.to_nat count /\
  snd r = (calls + 18 * Z.to_nat count)%nat /\
  Forall (fun p => getArrivalMinute p = start_minute /\
                   (getType p = "Urgent"%string \/
                    getType p = "Normal"%string) /\
                   String.length (getId p) = 14%nat) (fst r).
Proof.
  intros Hrand. cbv zeta.
  destruct (generatePatients_spec rand_values hour_first count
              start_minute calls Hrand) as (ps & E & Hl & Hall).
  rewrite E. simpl. auto.
Qed.

Lemma generatePatients_count_witness :
  (forall k, 0 <= example_rand k) /\
  let r := generatePatients example_rand true 3 9 2%nat in
  length (fst r) = Z.to_nat 3 /\
  snd r = (2 + 18 * Z.to_nat 3)%nat /\
  Forall (fun p => getArrivalMinute p = 9 /\
                   (getType p = "Urgent"%string \/
                    getType p = "Normal"%string) /\
                   String.length (getId p) = 14%nat) (fst r).
Proof.
  split; [exact example_rand_nonneg|].
  apply (generatePatients_count example_rand true 3 9 2%nat
           example_rand_nonneg).
Defined.

(** ** Enrolling a list of patients *)

Lemma addPatient_fold_queues (ps : list Patient) :
  forall s,
    urgent_queue (fold_left addPatient ps s)
      = urgent_queue s
        ++ filter (fun p => String.eqb (getType p) "Urgent") ps /\
    normal_queue (fold_left addPatient ps s)
      = normal_queue s
        ++ filter (fun p => negb (String.eqb (getType p) "Urgent")) ps /\
    served_patients (fold_left addPatient ps s) = served_patients s /\
    total_served (fold_left addPatient ps s) = total_served s /\
    total_waiting_time (fold_left addPatient ps s) = total_waiting_time s /\
    total_urgent (fold_left addPatient ps s)
      = total_urgent s
        + Z.of_nat (length (filter (fun p => String.eqb (getType p) "Urgent")
                                   ps)) /\
    total_normal (fold_left addPatient ps s)
      = total_normal s
        + Z.of_nat (length (filter (fun p => negb (String.eqb (getType p)
                                                              "Urgent"))
                                   ps)).
Proof.
  induction ps as [|p ps IH]; intros s.
  - simpl. rewrite !app_nil_r, !Z.add_0_r. repeat split.
  - cbn [fold_left filter].
    destruct (IH (addPatient s p)) as (H1 & H2 & H3 & H4 & H5 & H6 & H7).
    rewrite H1, H2, H3, H4, H5, H6, H7. unfold addPatient.
    destruct (String.eqb (getType p) "Urgent"); simpl;
      rewrite <- ?app_assoc; simpl; repeat split; lia.
Qed.

(** X18.  Enrolling a list of patients in a new scheduler splits it in
    two without reordering: the urgent queue holds, in the order of the
    list, the patients whose type is [Urgent], and the normal queue all
    the others, whatever their type; [total_urgent] and [total_normal]
    are the lengths of the two queues. *)
Theorem enrolment_keeps_order (ps : list Patient) :
  let s := fold_left addPatient ps new_Scheduler in
  urgent_queue s = filter (fun p => String.eqb (getType p) "Urgent") ps /\
  normal_queue s
    = filter (fun p => negb (String.eqb (getType p) "Urgent")) ps /\
  total_urgent s = Z.of_nat (length (urgent_queue s)) /\
  total_normal s = Z.of_nat (length (normal_queue s)) /\
  served_patients s = [].
Proof.
  cbv zeta.
  destruct (addPatient_fold_queues ps new_Scheduler)
    as (H1 & H2 & H3 & _ & _ & H6 & H7).
  simpl in *. rewrite H1, H2, H3, H6, H7. repeat split.
Qed.

(** X19.  When [rand()] returns non-negative values, [main] enters its
    loop with 100 patients queued, all with arrival minute 0 and nobody
    served; every patient of the urgent queue has the type [Urgent] and
    every patient of the normal queue the type [Normal]. *)
Theorem initial_scheduler_cohort (rand_values : nat -> Z)
    (hour_first : bool) :
  (forall k, 0 <= rand_values k) ->
  let s := initial_scheduler rand_values hour_first in
  total_patients s = 100 /\
  (length (urgent_queue s) + length (normal_queue s))%nat = 100%nat /\
  Forall (fun p => getType p = "Urgent"%string /\ getArrivalMinute p = 0)
         (urgent_queue s) /\
  Forall (fun p => getType p = "Normal"%string /\ getArrivalMinute p = 0)
         (normal_queue s) /\
  served_patients s = [] /\ total_served s = 0.
Proof.
  intros Hrand. cbv zeta. unfold initial_scheduler.
  destruct (generatePatients_spec rand_values hour_first 100 0 O Hrand)
    as (ps & E & Hlen & Hall).
  rewrite E. cbn [fst]. change (Z.to_nat 100) with 100%nat in Hlen.
  destruct (addPatient_fold_queues ps new_Scheduler)
    as (H1 & H2 & H3 & H4 & _).
  destruct (addPatient_fold ps new_Scheduler) as (H5 & _).
  simpl in H1, H2, H3, H4, H5.
  rewrite H1, H2, H3, H4, H5, Hlen.
  split; [reflexivity|]. split.
  - rewrite <- Hlen. clear. induction ps as [|p ps IH]; simpl; [reflexivity|].
    destruct (String.eqb _ _); simpl; lia.
  - repeat split.
    + apply Forall_forall. intros p Hp. apply filter_In in Hp as [Hin Hp].
      apply String.eqb_eq in Hp.
      rewrite Forall_forall in Hall. destruct (Hall p Hin) as (Ha & _).
      auto.
    + apply Forall_forall. intros p Hp. apply filter_In in Hp as [Hin Hp].
      apply negb_true_iff, String.eqb_neq in Hp.
      rewrite Forall_forall in Hall.
      destruct (Hall p Hin) as (Ha & [Ht|Ht] & _); [contradiction|auto].
Qed.

Lemma initial_scheduler_cohort_witness :
  (forall k, 0 <= example_rand k) /\
  let s := initial_scheduler example_rand true in
  total_patients s = 100 /\
  (length (urgent_queue s) + length (normal_queue s))%nat = 100%nat /\
  Forall (fun p => getType p = "Urgent"%string /\ getArrivalMinute p = 0)
         (urgent_queue s) /\
  Forall (fun p => getType p = "Normal"%string /\ getArrivalMinute p = 0)
         (normal_queue s) /\
  served_patients s = [] /\ total_served s = 0.
Proof.
  split; [exact example_rand_nonneg|].
  apply (initial_scheduler_cohort example_rand true example_rand_nonneg).
Defined.

(** * Reports *)

Lemma print_loop_run (q : list Patient) :
  forall fuel out,
    (length q <= fuel)%nat ->
    while fuel print_cond print_body (mkPrintLoop q out)
    = Some (mkPrintLoop [] (out ++ printed_ids q), length q).
Proof.
  induction q as [|p q IH]; intros fuel out Hfuel; rewrite while_unfold.
  - simpl. rewrite app_nil_r. reflexivity.
  - destruct fuel as [|fuel]; [simpl in Hfuel; lia|].
    cbn -[while]. rewrite IH by (simpl in Hfuel; lia).
    rewrite <- app_assoc. reflexivity.
Qed.

(** X20.  [displayQueues] prints the ids of the urgent queue from front
    to back, then those of the normal queue, then those of the served
    patients in the order they were served, each id followed by a
    space. *)
Theorem displayQueues_prints_in_order (s : Scheduler) :
  displayQueues s =
    [ OStr (newline ++ "Current State of Queues:" ++ newline);
      OStr "Urgent Queue: " ]
    ++ printed_ids (urgent_queue s)
    ++ [ OEndl; OStr "Normal Queue: " ]
    ++ printed_ids (normal_queue s)
    ++ [ OEndl; OStr "Currently Served Patients: " ]
    ++ printed_ids (served_patients s)
    ++ [ OEndl ].
Proof.
  unfold displayQueues, print_queue. cbv zeta.
  rewrite !print_loop_run by lia. cbn [printed].
  assert (Hfold : forall l out,
            fold_left (fun o p => o ++ [OStr (getId p); OStr " "]) l out
            = out ++ printed_ids l).
  { induction l as [|p l IH]; intros out; simpl.
    - rewrite app_nil_r. reflexivity.
    - rewrite IH, <- app_assoc. reflexivity. }
  rewrite Hfold. rewrite <- !app_assoc. reflexivity.
Qed.



(** * First come, first served *)

Lemma subseq_refl {A : Type} (l : list A) : subseq l l.
Proof. induction l; constructor; assumption. Qed.

Lemma subseq_filter {A : Type} (f : A -> bool) (l : list A) :
  subseq (filter f l) l.
Proof.
  induction l as [|x l IH]; simpl; [constructor|].
  destruct (f x); constructor; assumption.
Qed.

Lemma subseq_app {A : Type} (a b c d : list A) :
  subseq a b -> subseq c d -> subseq (a ++ c) (b ++ d).
Proof.
  intros Hab Hcd. induction Hab; simpl; auto; constructor; assumption.
Qed.

Lemma filter_id {A : Type} (f : A -> bool) (l : list A) :
  Forall (fun x => f x = true) l -> filter f l = l.
Proof.
  induction 1 as [|x l Hx _ IH]; simpl; [reflexivity|].
  rewrite Hx, IH. reflexivity.
Qed.

Lemma filter_empty {A : Type} (f : A -> bool) (l : list A) :
  Forall (fun x => f x = false) l -> filter f l = [].
Proof.
  induction 1 as [|x l Hx _ IH]; simpl; [reflexivity|].
  rewrite Hx, IH. reflexivity.
Qed.

(** The elements of a list that ends a filtered list pass the filter. *)
Lemma filter_suffix {A : Type} (f : A -> bool) (l a b : list A) :
  filter f l = a ++ b -> Forall (fun x => f x = true) b.
Proof.
  intros H. apply Forall_forall. intros x Hx.
  assert (Hin : In x (filter f l)) by (rewrite H; apply in_or_app; auto).
  apply filter_In in Hin. tauto.
Qed.

(** X22.  Within a category, patients leave the queue and are served in
    the order of their enrolment.  After any sequence of calls on a new
    scheduler, the enrolled patients of type [Urgent], in enrolment
    order, are those that have left the urgent queue followed by the
    urgent queue itself, and the urgent patients of [served_patients]
    are, in order, among those that have left; the same holds of the
    other patients and the normal queue. *)
Theorem served_in_enrolment_order (cs : list Call) :
  let s := run new_Scheduler cs in
  exists gone_u gone_n,
    filter is_urgent (enrolled cs) = gone_u ++ urgent_queue s /\
    filter (fun p => negb (is_urgent p)) (enrolled cs)
      = gone_n ++ normal_queue s /\
    subseq (filter is_urgent (served_patients s)) gone_u /\
    subseq (filter (fun p => negb (is_urgent p)) (served_patients s))
           gone_n.
Proof.
  cbv zeta. induction cs as [|c cs IH] using rev_ind.
  - exists [], []. simpl. repeat split; constructor.
  - destruct IH as (gu & gn & Hu & Hn & Su & Sn).
    unfold run, enrolled in *.
    rewrite fold_left_app, flat_map_app, !filter_app. simpl fold_left.
    set (s := fold_left call cs new_Scheduler) in *.
    destruct c as [p | max_to_serve minute].
    + exists gu, gn. simpl. unfold addPatient, is_urgent in *.
      destruct (String.eqb (getType p) "Urgent") eqn:E; simpl;
        rewrite ?app_nil_r, ?app_assoc, Hu, Hn; auto.
    + simpl flat_map. simpl filter. rewrite !app_nil_r.
      destruct (servePatients_exits max_to_serve minute s)
        as (ku & kn & Hs & _).
      cbv zeta in Hs. simpl call. rewrite Hs. simpl.
      pose proof (filter_suffix _ _ _ _ Hu) as Fu.
      pose proof (filter_suffix _ _ _ _ Hn) as Fn.
      assert (FU : Forall (fun p => is_urgent p = true)
                     (filter (in_time minute)
                             (firstn ku (urgent_queue s)))).
      { apply served_from_queue. exact Fu. }
      assert (FN : Forall (fun p => negb (is_urgent p) = true)
                     (filter (in_time minute)
                             (firstn kn (normal_queue s)))).
      { apply served_from_queue. exact Fn. }
      exists (gu ++ firstn ku (urgent_queue s)),
             (gn ++ firstn kn (normal_queue s)).
      rewrite <- !app_assoc, !firstn_skipn, !filter_app.
      rewrite (filter_id is_urgent _ FU).
      rewrite (filter_id (fun p => negb (is_urgent p)) _ FN).
      rewrite (filter_empty is_urgent
                 (filter (in_time minute) (firstn kn (normal_queue s)))).
      2:{ eapply Forall_impl; [|exact FN]. simpl. intros a Ha.
          apply negb_true_iff. exact Ha. }
      rewrite (filter_empty (fun p => negb (is_urgent p))
                 (filter (in_time minute) (firstn ku (urgent_queue s)))).
      2:{ eapply Forall_impl; [|exact FU]. simpl. intros a Ha.
          rewrite Ha. reflexivity. }
      rewrite app_nil_r. simpl.
      repeat split; auto.
      * apply subseq_app; [exact Su | apply subseq_filter].
      * apply subseq_app; [exact Sn | apply subseq_filter].
Qed.

(** * Splitting a capacity over two calls *)

Section QueueLoopPass.
Context {A B : Type}.
Variables max_to_serve minute : Z.
Variable cond : A -> bool.
Variable body : A -> A.
Variable queue : A -> list Patient.
Variable appended : A -> list Patient.
Variable wait_sum : A -> Z.
Variable count : A -> Z.
Variable frame : A -> B.

Hypothesis cond_spec : forall st,
  cond st = (count st <? max_to_serve)
            && negb (match queue st with [] => true | _ :: _ => false end).

Hypothesis body_spec : forall st p rest,
  queue st = p :: rest ->
  queue (body st) = rest /\
  frame (body st) = frame st /\
  if in_time minute p then
    appended (body st) = appended st ++ [p] /\
    wait_sum (body st) = wait_sum st + waiting minute p /\
    count (body st) = count st + 1
  else
    appended (body st) = appended st /\
    wait_sum (body st) = wait_sum st /\
    count (body st) = count st.

(** The loop computes [pass] on its queue, with the room that is left. *)
Lemma queue_loop_pass :
  forall fuel st,
    (length (queue st) <= fuel)%nat ->
    exists k st',
      while fuel cond body st = Some (st', k) /\
      queue st' = fst (pass minute (queue st) (max_to_serve - count st)) /\
      appended st' =
        appended st
        ++ snd (pass minute (queue st) (max_to_serve - count st)) /\
      wait_sum st' =
        wait_sum st
        + sum_Z (map (waiting minute)
                     (snd (pass minute (queue st)
                                (max_to_serve - count st)))) /\
      count st' =
        count st
        + Z.of_nat (length (snd (pass minute (queue st)
                                      (max_to_serve - count st)))) /\
      frame st' = frame st.
Proof.
  induction fuel as [|f IH]; intros st Hlen.
  - exists O, st. rewrite while_unfold, cond_spec.
    destruct (queue st) as [|p rest] eqn:E; [|simpl in Hlen; lia].
    rewrite andb_false_r. simpl. rewrite app_nil_r, !Z.add_0_r.
    repeat split; auto.
  - rewrite while_unfold, cond_spec.
    destruct (queue st) as [|p rest] eqn:E.
    + exists O, st. rewrite andb_false_r. simpl.
      rewrite app_nil_r, !Z.add_0_r. repeat split; auto.
    + simpl pass.
      destruct (count st <? max_to_serve) eqn:Hc.
      * apply Z.ltb_lt in Hc.
        replace (0 <? max_to_serve - count st) with true
          by (symmetry; apply Z.ltb_lt; lia).
        simpl andb. cbv iota.
        destruct (body_spec st p rest E) as (Hq & Hf & Hb).
        destruct (IH (body st)) as (k & st' & Hrun & Hq' & Ha & Hw & Hn
                                    & Hfr).
        { rewrite Hq. simpl in Hlen. lia. }
        exists (S k), st'. rewrite Hrun. rewrite Hq in *.
        destruct (in_time minute p); destruct Hb as (Hb1 & Hb2 & Hb3).
        -- rewrite Hb1 in Ha. rewrite Hb2 in Hw. rewrite Hb3 in *.
           replace (max_to_serve - (count st + 1))
             with (max_to_serve - count st - 1) in * by lia.
           destruct (pass minute rest (max_to_serve - count st - 1))
             as [r sv].
           simpl in *. rewrite <- app_assoc in Ha. simpl in Ha.
           repeat split; auto; try lia; congruence.
        -- rewrite Hb1 in Ha. rewrite Hb2 in Hw. rewrite Hb3 in *.
           repeat split; auto; congruence.
      * apply Z.ltb_ge in Hc.
        replace (0 <? max_to_serve - count st) with false
          by (symmetry; apply Z.ltb_ge; lia).
        exists O, st. simpl. rewrite app_nil_r, !Z.add_0_r.
        repeat split; auto.
Qed.
End QueueLoopPass.

Lemma pass_no_room (minute : Z) (q : list Patient) (room : Z) :
  room <= 0 -> pass minute q room = (q, []).
Proof.
  intros H. destruct q as [|p q]; simpl; [reflexivity|].
  replace (0 <? room) with false by (symmetry; apply Z.ltb_ge; lia).
  reflexivity.
Qed.

Lemma pass_room (minute : Z) (q : list Patient) :
  forall room,
    0 <= room ->
    Z.of_nat (length (snd (pass minute q room))) <= room /\
    (fst (pass minute q room) <> [] ->
     Z.of_nat (length (snd (pass minute q room))) = room).
Proof.
  induction q as [|p q IH]; intros room Hroom; simpl.
  - split; [lia|]. intros H. contradiction.
  - destruct (0 <? room) eqn:E.
    + apply Z.ltb_lt in E. destruct (in_time minute p).
      * destruct (IH (room - 1)) as (H1 & H2); [lia|].
        destruct (pass minute q (room - 1)) as [r sv]. simpl in *.
        split; [lia|]. intros H. specialize (H2 H). lia.
      * apply IH. exact Hroom.
    + apply Z.ltb_ge in E. simpl. split; [lia|]. intros _. lia.
Qed.

Lemma pass_cons (minute : Z) (p : Patient) (q : list Patient) (room : Z) :
  pass minute (p :: q) room
  = if 0 <? room then
      if in_time minute p then
        let (rest, sv) := pass minute q (room - 1) in (rest, p :: sv)
      else pass minute q room
    else (p :: q, []).
Proof. reflexivity. Qed.

Lemma pass_split (minute : Z) (q : list Patient) :
  forall a b,
    0 <= a -> 0 <= b ->
    pass minute q (a + b)
    = (fst (pass minute (fst (pass minute q a)) b),
       snd (pass minute q a)
       ++ snd (pass minute (fst (pass minute q a)) b)).
Proof.
  induction q as [|p q IH]; intros a b Ha Hb.
  - reflexivity.
  - destruct (Z.eq_dec a 0) as [->|Hne].
    + rewrite (pass_no_room minute (p :: q) 0) by lia.
      rewrite Z.add_0_l. cbn [fst snd app].
      destruct (pass minute (p :: q) b); reflexivity.
    + rewrite !pass_cons.
      replace (0 <? a + b) with true by (symmetry; apply Z.ltb_lt; lia).
      replace (0 <? a) with true by (symmetry; apply Z.ltb_lt; lia).
      destruct (in_time minute p).
      * replace (a + b - 1) with ((a - 1) + b) by lia.
        rewrite (IH (a - 1) b) by lia.
        destruct (pass minute q (a - 1)) as [r sv]. reflexivity.
      * apply IH; assumption.
Qed.

(** [servePatients] in terms of [pass]: a pass over the urgent queue with
    the whole capacity, then a pass over the normal queue with what is
    left of it. *)
Lemma servePatients_pass (max_to_serve minute : Z) (s : Scheduler) :
  servePatients max_to_serve minute s =
    mkScheduler
      (fst (pass minute (urgent_queue s) max_to_serve))
      (fst (pass minute (normal_queue s)
                 (max_to_serve
                  - Z.of_nat (length (snd (pass minute (urgent_queue s)
                                                max_to_serve))))))
      (served_patients s
       ++ snd (pass minute (urgent_queue s) max_to_serve)
       ++ snd (pass minute (normal_queue s)
                    (max_to_serve
                     - Z.of_nat (length (snd (pass minute (urgent_queue s)
                                                   max_to_serve))))))
      (total_patients s) (total_urgent s) (total_normal s)
      (total_waiting_time s
       + sum_Z (map (waiting minute)
                    (snd (pass minute (urgent_queue s) max_to_serve)
                     ++ snd (pass minute (normal_queue s)
                                  (max_to_serve
                                   - Z.of_nat
                                       (length
                                          (snd (pass minute (urgent_queue s)
                                                     max_to_serve))))))))
      (total_served s
       + Z.of_nat
           (length
              (snd (pass minute (urgent_queue s) max_to_serve)
               ++ snd (pass minute (normal_queue s)
                            (max_to_serve
                             - Z.of_nat
                                 (length
                                    (snd (pass minute (urgent_queue s)
                                               max_to_serve)))))))).
Proof.
  destruct (servePatients_run max_to_serve minute s)
    as (ku & kn & st1 & st2 & H1 & H2 & Hs & _ & Hf1 & _ & Hf2).
  unfold urgent_frame in Hf1. unfold normal_frame in Hf2.
  simpl in Hf1, Hf2.
  injection Hf1 as Hnq Htp Htu Htn Hts.
  injection Hf2 as Huq' Htp' Htu' Htn' Hts'.
  destruct (queue_loop_pass max_to_serve minute
              (urgent_cond max_to_serve) (urgent_body minute)
              (fun st => urgent_queue (sched st))
              (fun st => served_patients (sched st))
              (fun st => total_waiting_time (sched st))
              served urgent_frame
              (urgent_cond_spec max_to_serve) (urgent_body_spec minute)
              (serve_fuel s) (mkServeState s 0))
    as (k1 & st1' & Hrun1 & Hq1 & Ha1 & Hw1 & Hn1 & _).
  { unfold serve_fuel. simpl. lia. }
  unfold urgent_phase in H1. rewrite H1 in Hrun1.
  injection Hrun1 as <- <-.
  destruct (queue_loop_pass max_to_serve minute
              (normal_cond max_to_serve) (normal_body minute)
              (fun st => normal_queue (sched st))
              (fun st => served_patients (sched st))
              (fun st => total_waiting_time (sched st))
              served normal_frame
              (normal_cond_spec max_to_serve) (normal_body_spec minute)
              (serve_fuel s) st1)
    as (k2 & st2' & Hrun2 & Hq2 & Ha2 & Hw2 & Hn2 & _).
  { rewrite Hnq. unfold serve_fuel. lia. }
  unfold normal_phase in H2. rewrite H2 in Hrun2.
  injection Hrun2 as <- <-.
  simpl in Hq1, Ha1, Hw1, Hn1. rewrite Z.sub_0_r in *.
  rewrite Hnq, Hn1 in *.
  rewrite Hs. unfold update_total_served. cbv zeta.
  rewrite Hq2, Huq', Hq1, Ha2, Ha1, Htp', Htp, Htu', Htu, Htn', Htn,
          Hw2, Hw1, Hts', Hts, Hn2.
  rewrite <- !app_assoc, map_app, length_app, Nat2Z.inj_add, sum_Z_app.
  f_equal; lia.
Qed.

(** X23.  Two calls of [servePatients] at the same minute, with
    capacities [a] and [b] that are not negative, leave the scheduler in
    the state one call with the capacity [a + b] leaves it in: the same
    patients are served in the same order, the same are discarded, the
    same remain queued. *)
Theorem servePatients_twice (a b minute : Z) (s : Scheduler) :
  0 <= a -> 0 <= b ->
  servePatients b minute (servePatients a minute s)
  = servePatients (a + b) minute s.
Proof.
  intros Ha Hb.
  rewrite (servePatients_pass b), (servePatients_pass a),
          (servePatients_pass (a + b)).
  cbn [urgent_queue normal_queue served_patients total_patients
       total_urgent total_normal total_waiting_time total_served].
  destruct (pass_room minute (urgent_queue s) a Ha) as (Hle & Hfull).
  rewrite (pass_split minute (urgent_queue s) a b Ha Hb).
  destruct (pass minute (urgent_queue s) a) as [u1 U1].
  cbn [fst snd] in *.
  destruct u1 as [|x u1].
  - (* the urgent queue was emptied by the first call *)
    cbn [pass fst snd length]. rewrite app_nil_r, Z.sub_0_r.
    replace (a + b - Z.of_nat (length U1))
      with ((a - Z.of_nat (length U1)) + b) by lia.
    rewrite (pass_split minute (normal_queue s)
               (a - Z.of_nat (length U1)) b) by lia.
    destruct (pass minute (normal_queue s) (a - Z.of_nat (length U1)))
      as [n1 N1].
    cbn [fst snd].
    destruct (pass minute n1 b) as [n2 N2]. cbn [fst snd app].
    rewrite !map_app, !sum_Z_app, !length_app, !Nat2Z.inj_add.
    rewrite <- !app_assoc.
    f_equal; lia.
  - (* the first call used its whole capacity on the urgent queue *)
    assert (Hfull' : Z.of_nat (length U1) = a)
      by (apply Hfull; discriminate).
    rewrite (pass_no_room minute (normal_queue s)
               (a - Z.of_nat (length U1))) by lia.
    cbn [fst snd].
    destruct (pass minute (x :: u1) b) as [u2 U2]. cbn [fst snd].
    rewrite (length_app U1 U2), Nat2Z.inj_add.
    replace (a + b - (Z.of_nat (length U1) + Z.of_nat (length U2)))
      with (b - Z.of_nat (length U2)) by lia.
    destruct (pass minute (normal_queue s) (b - Z.of_nat (length U2)))
      as [n2 N2].
    cbn [fst snd app].
    rewrite !app_nil_r.
    rewrite !map_app, !sum_Z_app, !length_app, !Nat2Z.inj_add.
    rewrite <- !app_assoc.
    f_equal; lia.
Qed.

Lemma servePatients_twice_witness :
  0 <= 1 /\ 0 <= 2 /\
  servePatients 2 20 (servePatients 1 20 busy_scheduler)
  = servePatients (1 + 2) 20 busy_scheduler.
Proof.
  split; [lia|]. split; [lia|].
  apply (servePatients_twice 1 2 20 busy_scheduler); lia.
Defined.

(** * A simulation driven by [next] alone *)

(** A pass on queues whose patients have all waited more than 10 minutes
    empties them, when it has a capacity of at least 1. *)
Lemma servePatients_purges (max_to_serve minute : Z) (s : Scheduler) :
  1 <= max_to_serve ->
  Forall (fun p => minute - getArrivalMinute p > 10)
         (urgent_queue s ++ normal_queue s) ->
  urgent_queue (servePatients max_to_serve minute s) = [] /\
  normal_queue (servePatients max_to_serve minute s) = [].
Proof.
  intros Hcap Hall. apply Forall_app in Hall as [Hu Hn].
  destruct (servePatients_exits max_to_serve minute s)
    as (ku & kn & Hs & _ & _ & Hex1 & Hex2 & _).
  cbv zeta in *.
  rewrite (filter_none minute (firstn ku _)) in *
    by (apply Forall_firstn; exact Hu).
  rewrite (filter_none minute (firstn kn _)) in *
    by (apply Forall_firstn; exact Hn).
  simpl in *. rewrite Hs. simpl.
  destruct Hex1 as [H1|H1]; [|lia].
  destruct Hex2 as [H2|H2]; [|lia]. auto.
Qed.

(** When no queued patient arrived after minute [latest], more than
    [latest + 11 - clock] lines [next] end the loop of [main]. *)
Lemma next_loop_ends (gender0 : ascii) (capacity : nat -> Z)
    (latest : Z) (n : nat) :
  (forall j, 1 <= capacity j) ->
  forall i st,
    Forall (fun p => getArrivalMinute p <= latest)
           (urgent_queue (scheduler st) ++ normal_queue (scheduler st)) ->
    (Z.to_nat (latest + 11 - clock st) < n)%nat ->
    snd (main_loop gender0 capacity i (repeat "next"%string n) st) = true.
Proof.
  intros Hcap. induction n as [|n IH]; intros i st Hall Hn; [lia|].
  cbn [repeat main_loop].
  change (main_iteration gender0 (capacity i) "next" st)
    with (let s' := servePatients (capacity i) (clock st) (scheduler st) in
          (mkMainState s' (clock st + 1),
           isUrgentQueueEmpty s' && isNormalQueueEmpty s')).
  cbv zeta.
  destruct (isUrgentQueueEmpty _ && isNormalQueueEmpty _) eqn:E;
    [reflexivity|].
  destruct (Z_lt_ge_dec (latest + 10) (clock st)) as [Hlate|Hearly].
  - (* every queued patient is stale: the pass empties the queues *)
    destruct (servePatients_purges (capacity i) (clock st) (scheduler st)
                (Hcap i)) as (H1 & H2).
    { eapply Forall_impl; [|exact Hall]. simpl. intros p Hp. lia. }
    assert (isUrgentQueueEmpty
              (servePatients (capacity i) (clock st) (scheduler st))
            && isNormalQueueEmpty
                 (servePatients (capacity i) (clock st) (scheduler st))
            = true) by (apply queue_empty_spec; auto).
    congruence.
  - apply IH.
    + cbn [scheduler].
      destruct (servePatients_exits (capacity i) (clock st) (scheduler st))
        as (ku & kn & Hs & _).
      cbv zeta in Hs. rewrite Hs. simpl.
      apply Forall_app in Hall as [Hu Hq].
      apply Forall_app. split; apply Forall_skipn; assumption.
    + cbn [clock]. lia.
Qed.

(** X24.  When [rand()] returns non-negative values and every capacity
    drawn is at least 1, as in [main], a run in which [next] is the only
    input ends at the twelfth [next] at the latest: the patients
    generated at minute 0 that are still queued at minute 11 are
    discarded by the pass of that minute. *)
Theorem next_only_simulation_ends (rand_values : nat -> Z)
    (hour_first : bool) (gender0 : ascii) (capacity : nat -> Z) :
  (forall k, 0 <= rand_values k) ->
  (forall j, 1 <= capacity j) ->
  snd (main_loop gender0 capacity 0 (repeat "next"%string 12)
         (mkMainState (initial_scheduler rand_values hour_first) 0))
  = true.
Proof.
  intros Hrand Hcap.
  apply (next_loop_ends gender0 capacity 0 12 Hcap); [|simpl; lia].
  cbn [scheduler]. unfold initial_scheduler.
  destruct (generatePatients_spec rand_values hour_first 100 0 O Hrand)
    as (ps & E & _ & Hall).
  rewrite E. cbn [fst].
  destruct (addPatient_fold_queues ps new_Scheduler) as (H1 & H2 & _).
  rewrite H1, H2. simpl.
  rewrite Forall_forall in Hall.
  apply Forall_app. split; apply Forall_forall; intros p Hp;
    apply filter_In in Hp as [Hin _];
    destruct (Hall p Hin) as (Ha & _); lia.
Qed.

Lemma next_only_simulation_ends_witness :
  (forall k, 0 <= example_rand k) /\
  (forall j : nat, 1 <= (fun _ => 5) j) /\
  snd (main_loop "?" (fun _ => 5) 0 (repeat "next"%string 12)
         (mkMainState (initial_scheduler example_rand true) 0))
  = true.
Proof.
  split; [exact example_rand_nonneg|]. split; [intros j; lia|].
  apply (next_only_simulation_ends example_rand true "?" (fun _ => 5)).
  - exact example_rand_nonneg.
  - intros j. lia.
Defined.
